(** * Ultimaker print-job logger: a shallow embedding of [ultimaker_logger.py]

    The development follows the source file top-down: Python values and the
    outside world first, then a small state-and-exception monad, then
    [PrinterAPI] and [UltimakerLogger] method by method, then the properties.

    Conventions.
    - JSON payloads are [pyval]s; JSON numbers are the integers ([PInt]).
    - A Python [dict] obtained from JSON is an association list read with
      [dict_lookup] (first binding wins).
    - Library calls whose result depends on data the program does not hold
      (the network, the time-zone database, the XML parser, [repr] of
      containers, Unicode-aware [str.strip]) are fields of [World].
    - The log file is the sequence of its rows, each a list of cells; how
      [csv] lays rows out as bytes is not modelled.
    - [logging] calls have no influence on control flow or data and are left
      out.
    - A [while True] loop takes a bound on its number of iterations; the
      termination theorem shows which bounds are enough. *)

From stdpp Require Import base gmap sets list strings pretty.
From Stdlib Require Import ZArith Ascii.

Local Set Warnings "-register-all".
Local Open Scope string_scope.
Local Open Scope Z_scope.
Local Open Scope list_scope.

(** ** Python values *)

Inductive pyval : Type :=
| PNone
| PBool (b : bool)
| PInt (z : Z)
| PStr (s : string)
| PList (l : list pyval)
| PDict (d : list (string * pyval)).

(** Truth value of an object, as tested by [if x] and [not x]. *)
Definition truthy (v : pyval) : bool :=
  match v with
  | PNone => false
  | PBool b => b
  | PInt z => negb (z =? 0)
  | PStr s => negb (String.eqb s "")
  | PList l => match l with [] => false | _ => true end
  | PDict d => match d with [] => false | _ => true end
  end.


Fixpoint dict_lookup (k : string) (d : list (string * pyval)) : option pyval :=
  match d with
  | [] => None
  | (k', v) :: d' => if String.eqb k' k then Some v else dict_lookup k d'
  end.

(** [d.get(k)] and [d.get(k, dflt)]. *)
Definition dict_get (d : list (string * pyval)) (k : string) : pyval :=
  default PNone (dict_lookup k d).
Definition dict_get_default (d : list (string * pyval)) (k : string) (dflt : pyval) : pyval :=
  default dflt (dict_lookup k d).

(** [s.replace("Z", "+00:00")]. *)
Fixpoint replace_Z (s : string) : string :=
  match s with
  | EmptyString => EmptyString
  | String c s' =>
      if Ascii.eqb c "Z"%char then "+00:00" +:+ replace_Z s'
      else String c (replace_Z s')
  end.

(** ** Configuration *)

Module CONFIG.
Definition MAX_RETRIES : Z := 3.
Definition REQUEST_TIMEOUT : Z := 10.
Definition BATCH_SIZE : Z := 50.
End CONFIG.

(** ** The outside world *)

(** The three endpoints the program requests, relative to
    [http://{ip}/api/v1/]:
    - [EpSystem] is ["system"];
    - [EpHistory offset count] is ["history/print_jobs?offset={offset}&count={count}"];
    - [EpMaterial guid] is ["materials/{guid}"]. *)
Inductive endpoint : Type :=
| EpSystem
| EpHistory (offset count : Z)
| EpMaterial (guid : pyval).

(** [datetime.datetime]: civil fields and the UTC offset in seconds, if aware. *)
Record datetime : Type := {
  year : Z; month : Z; day : Z;
  hour : Z; minute : Z; second : Z; microsecond : Z;
  utcoffset : option Z
}.

(** [xml.etree.ElementTree.Element]. *)
Inductive element : Type :=
| Element (tag : string) (text : option string) (children : list element).

Definition element_text (e : element) : option string :=
  match e with Element _ t _ => t end.
Definition element_children (e : element) : list element :=
  match e with Element _ _ cs => cs end.

(** [e.iter(tag)]: [e] and its descendants carrying [tag], in document order. *)
Fixpoint element_iter (tg : string) (e : element) : list element :=
  match e with
  | Element t _ cs =>
      (if String.eqb t tg then [e] else [])
        ++ (fix over (l : list element) : list element :=
              match l with
              | [] => []
              | c :: l' => element_iter tg c ++ over l'
              end) cs
  end.

(** [root.find(".//" + tag)]: the first proper descendant carrying [tag]. *)
Definition element_find_descendant (tg : string) (root : element) : option element :=
  head (concat (map (element_iter tg) (element_children root))).

Definition material_tag : string := "{http://www.ultimaker.com/material}material".

Record World : Type := {
  (** [session.get(url).raise_for_status().json()] for a device address and
      endpoint; [None] when a [requests.exceptions.RequestException] is
      raised (transport failure after retries, HTTP error status, or a body
      that is not JSON). *)
  http_get : string → endpoint → option pyval;
  (** [datetime.fromisoformat]; [None] is [ValueError]. *)
  fromisoformat : string → option datetime;
  (** [dt.astimezone(pytz.timezone("America/Los_Angeles")).isoformat()];
      [None] when the conversion raises ([OverflowError] at the ends of the
      calendar). *)
  astimezone_la_isoformat : datetime → option string;
  (** [ET.fromstring]; [None] is [ET.ParseError]. *)
  ET_fromstring : string → option element;
  (** [str.strip()]. *)
  str_strip : string → string;
  (** [str(v)] for [list] and [dict] objects. *)
  container_str : pyval → string
}.

(** What can go wrong on the sink side during one run. *)
Inductive disk_fault : Type :=
| DiskOk
| OpenFails                (* opening the log raises; nothing is written *)
| WriteFails (n : nat).    (* the write raises after [n] rows reached the file *)

Inductive sheet_fault : Type :=
| SheetOk
| AuthFails                (* credentials, authorize or open raises *)
| AppendFails (i : nat).   (* [append_rows] raises for the batch that starts at row [i] *)

Record Faults : Type := {
  read_fault : bool;       (* reading the log at startup raises *)
  disk : disk_fault;
  sheet : sheet_fault
}.

(** ** Observable effects and program state *)

Inductive event : Type :=
| EvGet (ip : string) (ep : endpoint)           (* one [make_request] *)
| EvSheetOpen                                    (* [_update_google_sheets] starts talking to the remote *)
| EvSheetAppend (batch : list (list pyval))      (* [sheet.append_rows(batch)] succeeded *)
| EvSleep.                                       (* [time.sleep(1)] *)

Record state : Type := {
  trace : list event;                   (* effects so far, oldest first *)
  names : gmap nat pyval;               (* [PrinterAPI._name], per printer object *)
  csv_file : option (list (list string)) (* the log: [None] if absent, else its rows *)
}.

Definition emit_event (e : event) (st : state) : state :=
  {| trace := trace st ++ [e]; names := names st; csv_file := csv_file st |}.
Definition set_name (i : nat) (v : pyval) (st : state) : state :=
  {| trace := trace st; names := <[i := v]> (names st); csv_file := csv_file st |}.
Definition set_csv (f : option (list (list string))) (st : state) : state :=
  {| trace := trace st; names := names st; csv_file := f |}.

(** ** Exceptions and the monad *)

Inductive exn : Type :=
| RequestException | ParseError | AttributeError | TypeError
| ValueError | OverflowError | KeyError | OSError | APIError.

Inductive outcome (A : Type) : Type :=
| Ok (a : A)
| Raise (e : exn).
Arguments Ok {A} a.
Arguments Raise {A} e.

Definition M (A : Type) : Type := state → outcome A * state.

Definition ret {A} (a : A) : M A := fun st => (Ok a, st).
Definition raise {A} (e : exn) : M A := fun st => (Raise e, st).
Definition bind {A B} (m : M A) (k : A → M B) : M B :=
  fun st =>
    match m st with
    | (Ok a, st') => k a st'
    | (Raise e, st') => (Raise e, st')
    end.
Definition emit (e : event) : M unit := fun st => (Ok tt, emit_event e st).

Notation "'let*' x ':=' m 'in' k" := (bind m (fun x => k))
  (at level 10, x pattern, m at level 100, k at level 200).

(** [try: m  except <class>: h].  [catches] says which exceptions are
    instances of the class. *)
Definition try_except {A} (m : M A) (catches : exn → bool) (h : exn → M A) : M A :=
  fun st =>
    match m st with
    | (Ok a, st') => (Ok a, st')
    | (Raise e, st') => if catches e then h e st' else (Raise e, st')
    end.

Definition is_RequestException (e : exn) : bool :=
  match e with RequestException => true | _ => false end.
Definition is_ParseError (e : exn) : bool :=
  match e with ParseError => true | _ => false end.
(** Every class of [exn] derives from [Exception]. *)
Definition is_Exception (e : exn) : bool := true.

(** ** [class PrinterAPI] *)

Record PrinterAPI : Type := {
  pid : nat;       (* identity of the object; keys its [_name] cell *)
  ip : string
}.

Section Device.
Context (w : World).

Definition make_request (self : PrinterAPI) (ep : endpoint) : M pyval :=
  try_except
    (let* _ := emit (EvGet (ip self) ep) in
     match http_get w (ip self) ep with
     | Some response => ret response
     | None => raise RequestException
     end)
    is_RequestException
    (fun _ => ret (PDict [])).

Definition default_name (self : PrinterAPI) : pyval := PStr ("Printer-" +:+ ip self).

(** The [name] property: resolve on first use, then reuse [_name] as long
    as it is not [None]. *)
Definition name (self : PrinterAPI) : M pyval :=
  fun st =>
    match default PNone (names st !! pid self) with
    | PNone =>
        (let* response := make_request self EpSystem in
         let resolved :=
           match response with
           | PDict d => dict_get_default d "name" (default_name self)
           | _ => default_name self
           end in
         fun st' => (Ok resolved, set_name (pid self) resolved st')) st
    | cached => (Ok cached, st)
    end.

Definition get_material_name (self : PrinterAPI) (material_guid : pyval) : M string :=
  if negb (truthy material_guid) then ret "Unknown"
  else
    try_except
      (let* response := make_request self (EpMaterial material_guid) in
       let* returned :=
         match response with
         | PStr xml =>
             try_except
               (let* root :=
                  match ET_fromstring w xml with
                  | Some root => ret root
                  | None => raise ParseError
                  end in
                match element_find_descendant material_tag root with
                | Some material_element =>
                    match element_text material_element with
                    | Some t => ret (Some (str_strip w t))
                    | None => raise AttributeError
                    end
                | None => ret None
                end)
               is_ParseError
               (fun _ => ret None)
         | _ => ret None
         end in
       match returned with
       | Some material => ret material
       | None => ret "Unknown"
       end)
      is_RequestException
      (fun _ => ret "Unknown").

End Device.

(** ** Canonical job records: the dict built by [_process_print_job] *)

Module Job.
Record t : Type := {
  uuid : pyval;
  printer_name : pyval;
  date : string;
  datetime_started : pyval;
  datetime_finished : pyval;
  name : pyval;
  result : pyval;
  time_total : pyval;
  material_0_amount : pyval;
  material_1_amount : pyval;
  material_0_name : string;
  material_1_name : string
}.

(** The dict's items, in insertion order. *)
Definition items (j : t) : list (string * pyval) :=
  [ ("uuid", uuid j); ("printer_name", printer_name j); ("date", PStr (date j));
    ("datetime_started", datetime_started j);
    ("datetime_finished", datetime_finished j);
    ("name", name j); ("result", result j); ("time_total", time_total j);
    ("material_0_amount", material_0_amount j);
    ("material_1_amount", material_1_amount j);
    ("material_0_name", PStr (material_0_name j));
    ("material_1_name", PStr (material_1_name j)) ].
End Job.

Definition fieldnames : list string :=
  [ "uuid"; "printer_name"; "date"; "datetime_started"; "datetime_finished";
    "name"; "result"; "time_total"; "material_0_amount";
    "material_1_amount"; "material_0_name"; "material_1_name" ].

(** [str.zfill]-style padding used by [date.isoformat()]. *)
Definition zero_pad (width : nat) (s : string) : string :=
  String.concat "" (replicate (width - String.length s)%nat "0") +:+ s.

(** [dt.date().isoformat()]: [YYYY-MM-DD]. *)
Definition date_isoformat (dt : datetime) : string :=
  zero_pad 4 (pretty (year dt)) +:+ "-" +:+ zero_pad 2 (pretty (month dt))
    +:+ "-" +:+ zero_pad 2 (pretty (day dt)).

(** ** [class UltimakerLogger] *)

Record UltimakerLogger : Type := {
  printers : list PrinterAPI;
  existing_uuids : gset string
}.

(** A computation containing a [while True] loop: [None] when the supply of
    iterations is used up before the loop exits. *)
Definition L (A : Type) : Type := state → option (outcome A * state).

Definition lift {A} (m : M A) : L A := fun st => Some (m st).
Definition bindL {A B} (m : L A) (k : A → L B) : L B :=
  fun st =>
    match m st with
    | Some (Ok a, st') => k a st'
    | Some (Raise e, st') => Some (Raise e, st')
    | None => None
    end.

Notation "'let+' x ':=' m 'in' k" := (bindL m (fun x => k))
  (at level 10, x pattern, m at level 100, k at level 200).

Section Logger.
Context (w : World) (f : Faults).

(** *** Reading the log: [csv.DictReader] over the rows of the file *)

(** Position of the last occurrence of [k]: with [dict(zip(fieldnames, row))]
    a repeated column name keeps its last cell. *)
Fixpoint last_index (k : string) (l : list string) : option nat :=
  match l with
  | [] => None
  | x :: l' =>
      match last_index k l' with
      | Some i => Some (S i)
      | None => if String.eqb x k then Some 0%nat else None
      end
  end.

(** [row['uuid']] for a row dict made by [DictReader]: [KeyError] when no
    column is called [uuid]; the restval [None] when the row is too short. *)
Definition DictReader_uuid (header row : list string) : outcome (option string) :=
  match last_index "uuid" header with
  | None => Raise KeyError
  | Some i => Ok (row !! i)
  end.

(** [{row['uuid'] for row in reader if row['uuid']}]; the reader passes
    over empty rows. *)
Fixpoint uuid_comprehension (header : list string) (rows : list (list string))
  : outcome (gset string) :=
  match rows with
  | [] => Ok ∅
  | [] :: rest => uuid_comprehension header rest
  | row :: rest =>
      match DictReader_uuid header row with
      | Raise e => Raise e
      | Ok cell =>
          match uuid_comprehension header rest with
          | Raise e => Raise e
          | Ok s =>
              match cell with
              | Some c => if String.eqb c "" then Ok s else Ok ({[ c ]} ∪ s)
              | None => Ok s
              end
          end
      end
  end.

Definition read_log (st : state) : outcome (gset string) :=
  match csv_file st with
  | None => Ok ∅                               (* [csv_path.exists()] is false *)
  | Some rows =>
      if read_fault f then Raise OSError
      else match rows with
           | [] => Ok ∅                        (* no header line, no rows *)
           | header :: data => uuid_comprehension header data
           end
  end.

(** Runs inside [__init__], where [existing_uuids] starts as [set()]. *)
Definition _load_existing_uuids (self : UltimakerLogger) : M UltimakerLogger :=
  try_except
    (fun st =>
       match read_log st with
       | Ok s => (Ok {| printers := printers self; existing_uuids := s |}, st)
       | Raise e => (Raise e, st)
       end)
    is_Exception
    (fun _ => ret {| printers := printers self; existing_uuids := ∅ |}).

(** [__init__], from the addresses read from the IP file. *)
Definition __init__ (printer_ips : list string) : M UltimakerLogger :=
  let self :=
    {| printers := imap (fun i a => {| pid := i; ip := a |}) printer_ips;
       existing_uuids := ∅ |} in
  _load_existing_uuids self.

(** *** Normalizing one job *)

(** [v.replace('Z', '+00:00')]: only [str] has the method. *)
Definition py_replace_Z (v : pyval) : M string :=
  match v with
  | PStr s => ret (replace_Z s)
  | _ => raise AttributeError
  end.

Definition py_fromisoformat (s : string) : M datetime :=
  match fromisoformat w s with
  | Some dt => ret dt
  | None => raise ValueError
  end.

Definition _convert_to_pst (iso_timestamp : pyval) : M pyval :=
  if negb (truthy iso_timestamp) then ret (PStr "")
  else
    try_except
      (let* replaced := py_replace_Z iso_timestamp in
       let* utc_time := py_fromisoformat replaced in
       match astimezone_la_isoformat w utc_time with
       | Some s => ret (PStr s)
       | None => raise OverflowError
       end)
      is_Exception
      (fun _ => ret iso_timestamp).

(** [max(0, v)]: the first maximal argument; ordering an [int] against
    [None], a [str], a [list] or a [dict] is a [TypeError]. *)
Definition py_max0 (v : pyval) : M pyval :=
  match v with
  | PInt z => ret (if 0 <? z then PInt z else PInt 0)
  | PBool b => ret (if b then PBool true else PInt 0)
  | _ => raise TypeError
  end.

(** [x in ['Finished', 'Aborted']]. *)
Definition in_terminal (v : pyval) : bool :=
  match v with
  | PStr s => String.eqb s "Finished" || String.eqb s "Aborted"
  | _ => false
  end.

Definition _process_print_job (printer : PrinterAPI) (job : list (string * pyval))
  : M (option Job.t) :=
  if negb (in_terminal (dict_get job "result")) then ret None
  else
    try_except
      (let* start_date :=
         if truthy (dict_get job "datetime_started") then
           let* replaced :=
             py_replace_Z (dict_get_default job "datetime_started" (PStr "")) in
           let* dt := py_fromisoformat replaced in
           ret (date_isoformat dt)
         else ret "" in
       let* printer_name := name w printer in
       let* started :=
         _convert_to_pst (dict_get_default job "datetime_started" (PStr "")) in
       let* finished :=
         _convert_to_pst (dict_get_default job "datetime_finished" (PStr "")) in
       let* amount_0 := py_max0 (dict_get_default job "material_0_amount" (PInt 0)) in
       let* amount_1 := py_max0 (dict_get_default job "material_1_amount" (PInt 0)) in
       let* name_0 :=
         get_material_name w printer (dict_get_default job "material_0_guid" (PStr "")) in
       let* name_1 :=
         get_material_name w printer (dict_get_default job "material_1_guid" (PStr "")) in
       ret (Some {| Job.uuid := dict_get_default job "uuid" (PStr "");
                    Job.printer_name := printer_name;
                    Job.date := start_date;
                    Job.datetime_started := started;
                    Job.datetime_finished := finished;
                    Job.name := dict_get_default job "name" (PStr "");
                    Job.result := dict_get_default job "result" (PStr "");
                    Job.time_total := dict_get_default job "time_total" (PInt 0);
                    Job.material_0_amount := amount_0;
                    Job.material_1_amount := amount_1;
                    Job.material_0_name := name_0;
                    Job.material_1_name := name_1 |}))
      is_Exception
      (fun _ => ret None).

(** *** The sink *)

(** A cell as [csv.writer] renders it: [None] is the empty field, a [str]
    is written as it is, anything else through [str()]. *)
Definition csv_cell (v : pyval) : string :=
  match v with
  | PNone => ""
  | PStr s => s
  | PBool true => "True"
  | PBool false => "False"
  | PInt z => pretty z
  | PList _ | PDict _ => container_str w v
  end.

(** [DictWriter._dict_to_list]: one cell per field name, [''] for a key
    the row dict lacks. *)
Definition DictWriter_row (fieldnames : list string) (rowdict : list (string * pyval))
  : list string :=
  map (fun key => csv_cell (dict_get_default rowdict key (PStr ""))) fieldnames.

(** The [with self.csv_path.open(...)] block: mode ['a'] keeps the rows of
    an existing file, mode ['w'] starts from nothing; then the header (for
    a new file only) and the data rows. *)
Definition write_csv (file_exists : bool) (print_jobs : list Job.t) : M unit :=
  fun st =>
    match disk f with
    | OpenFails => (Raise OSError, st)
    | fault =>
        let kept := if file_exists then default [] (csv_file st) else [] in
        let out :=
          (if file_exists then [] else [fieldnames])
            ++ map (fun job => DictWriter_row fieldnames (Job.items job)) print_jobs in
        match fault with
        | WriteFails n => (Raise OSError, set_csv (Some (kept ++ take n out)) st)
        | _ => (Ok tt, set_csv (Some (kept ++ out)) st)
        end
    end.

Fixpoint mapM {A B} (g : A → M B) (l : list A) : M (list B) :=
  match l with
  | [] => ret []
  | x :: l' => let* y := g x in let* ys := mapM g l' in ret (y :: ys)
  end.

Fixpoint forM {A} (l : list A) (body : A → M unit) : M unit :=
  match l with
  | [] => ret tt
  | x :: l' => let* _ := body x in forM l' body
  end.

(** [d[k]]. *)
Definition py_getitem (d : list (string * pyval)) (k : string) : M pyval :=
  match dict_lookup k d with
  | Some v => ret v
  | None => raise KeyError
  end.

(** [range(0, stop, step)]; a zero step is a [ValueError]. *)
Definition py_range (stop step : nat) : M (list nat) :=
  match step with
  | O => raise ValueError
  | _ => ret (map (fun k => (k * step)%nat) (seq 0 ((stop + step - 1) / step)))
  end.

Definition append_rows (i : nat) (batch : list (list pyval)) : M unit :=
  match sheet f with
  | AppendFails i' =>
      if (i =? i')%nat then raise APIError else emit (EvSheetAppend batch)
  | _ => emit (EvSheetAppend batch)
  end.

Definition _update_google_sheets
  (print_jobs : list Job.t) (fieldnames : list string) (batch_size : nat) : M unit :=
  try_except
    (let* _ := emit EvSheetOpen in
     let* _ := match sheet f with AuthFails => raise APIError | _ => ret tt end in
     let* rows :=
       mapM (fun job => mapM (fun field => py_getitem (Job.items job) field) fieldnames)
         print_jobs in
     let* starts := py_range (length rows) batch_size in
     forM starts (fun i =>
       let batch := take batch_size (drop i rows) in
       let* _ := append_rows i batch in
       if (i + batch_size <? length rows)%nat then emit EvSleep else ret tt))
    is_Exception
    (fun _ => ret tt).

Definition _save_jobs (print_jobs : list Job.t) : M unit :=
  try_except
    (let* file_exists := (fun st => (Ok (bool_decide (is_Some (csv_file st))), st)) in
     let* _ := write_csv file_exists print_jobs in
     _update_google_sheets print_jobs fieldnames 100)
    is_Exception
    (fun _ => ret tt).

(** *** The sweep *)

(** [v not in s] for a set of strings: the value is hashed first; values
    that are not [str] equal no member. *)
Definition py_not_in (v : pyval) (s : gset string) : M bool :=
  match v with
  | PStr x => ret (bool_decide (x ∉ s))
  | PList _ | PDict _ => raise TypeError
  | PNone | PBool _ | PInt _ => ret true
  end.

(** [for job in history: ...]. *)
Fixpoint for_jobs (self : UltimakerLogger) (printer : PrinterAPI)
  (history : list pyval) (all_print_jobs : list Job.t) : M (list Job.t) :=
  match history with
  | [] => ret all_print_jobs
  | job :: rest =>
      let* all_print_jobs :=
        match job with
        | PDict d =>
            let* processed_job := _process_print_job printer d in
            match processed_job with
            | Some pj =>
                let* fresh := py_not_in (dict_get d "uuid") (existing_uuids self) in
                if fresh then ret (all_print_jobs ++ [pj]) else ret all_print_jobs
            | None => ret all_print_jobs
            end
        | _ => ret all_print_jobs
        end in
      for_jobs self printer rest all_print_jobs
  end.

(** [while True: ...] for one printer; [fuel] bounds the number of pages. *)
Fixpoint fetch_pages (fuel : nat) (self : UltimakerLogger) (printer : PrinterAPI)
  (offset : Z) (all_print_jobs : list Job.t) : L (list Job.t) :=
  match fuel with
  | O => fun _ => None
  | S fuel' =>
      let+ history :=
        lift (make_request w printer (EpHistory offset CONFIG.BATCH_SIZE)) in
      match history with
      | PList l =>
          let+ all_print_jobs := lift (for_jobs self printer l all_print_jobs) in
          if Z.of_nat (length l) <? CONFIG.BATCH_SIZE then lift (ret all_print_jobs)
          else fetch_pages fuel' self printer (offset + CONFIG.BATCH_SIZE) all_print_jobs
      | _ => lift (ret all_print_jobs)
      end
  end.

(** [for printer in self.printers: ...]. *)
Fixpoint for_printers (fuel : nat) (self : UltimakerLogger) (ps : list PrinterAPI)
  (all_print_jobs : list Job.t) : L (list Job.t) :=
  match ps with
  | [] => lift (ret all_print_jobs)
  | printer :: ps' =>
      let+ printer_name := lift (name w printer) in
      let+ all_print_jobs := fetch_pages fuel self printer 0 all_print_jobs in
      for_printers fuel self ps' all_print_jobs
  end.

(** The value of [all_print_jobs] when the loop over the printers is done. *)
Definition collect_batch (fuel : nat) (self : UltimakerLogger) : L (list Job.t) :=
  for_printers fuel self (printers self) [].

(** The end of [collect_logs]: [if all_print_jobs: self._save_jobs(all_print_jobs)]. *)
Definition save_if_any (all_print_jobs : list Job.t) : M unit :=
  match all_print_jobs with
  | [] => ret tt
  | _ => _save_jobs all_print_jobs
  end.

Definition collect_logs (fuel : nat) (self : UltimakerLogger) : L unit :=
  let+ all_print_jobs := collect_batch fuel self in
  lift (save_if_any all_print_jobs).

(** [main], from the addresses listed in the IP file. *)
Definition main (fuel : nat) (printer_ips : list string) : L unit :=
  let+ logger := lift (__init__ printer_ips) in
  collect_logs fuel logger.

End Logger.

(** * Vocabulary of the properties *)

(** ** Computations that leave the log alone

    Everything the sweep does touches the trace and the name cells only: it
    neither reads nor writes the log.  [devM P m] records that -- [m] runs
    the same way whatever the log is -- together with a bound [P] on the
    events [m] may emit. *)

Definition devM {A} (P : event → Prop) (m : M A) : Prop :=
  ∀ st, ∃ o d n,
    Forall P d ∧
    ∀ c, m (set_csv c st) = (o, {| trace := trace st ++ d; names := n; csv_file := c |}).

(** A request to a printer. *)
Definition is_get (e : event) : Prop :=
  match e with EvGet _ _ => True | _ => False end.

(** A request that is not for a page of job history. *)
Definition is_side_get (e : event) : Prop :=
  match e with
  | EvGet _ (EpHistory _ _) => False
  | EvGet _ _ => True
  | _ => False
  end.

(** [devM] for computations with a page loop. *)
Definition devL {A} (P : event → Prop) (m : L A) : Prop :=
  ∀ st,
    (∀ c, m (set_csv c st) = None) ∨
    ∃ o d n,
      Forall P d ∧
      ∀ c, m (set_csv c st)
           = Some (o, {| trace := trace st ++ d; names := n; csv_file := c |}).

(** ** Batches and known ids *)






(** What [__init__] leaves in [existing_uuids]. *)
Definition loaded_uuids (f : Faults) (st : state) : gset string :=
  match read_log f st with
  | Ok s => s
  | Raise _ => ∅
  end.

(** [r] is what [_process_print_job] returned for some raw job. *)
Definition normalized (w : World) (r : Job.t) : Prop :=
  ∃ p job st st', _process_print_job w p job st = (Ok (Some r), st').

(** ** Pages *)

(** Offsets of the history pages requested along a trace. *)
Definition history_offsets (tr : list event) : list Z :=
  omap (λ e, match e with EvGet _ (EpHistory o _) => Some o | _ => None end) tr.

(** What printer [p] answers for its [i]-th page. *)
Definition page (w : World) (p : PrinterAPI) (i : nat) : option pyval :=
  http_get w (ip p) (EpHistory (CONFIG.BATCH_SIZE * Z.of_nat i) CONFIG.BATCH_SIZE).

(** A page with fewer records than asked for; a failed request and an answer
    that is not a list count as such. *)
Definition short_page (r : option pyval) : bool :=
  match r with
  | Some (PList l) => Z.of_nat (length l) <? CONFIG.BATCH_SIZE
  | _ => true
  end.

Definition is_Ok {A} (r : outcome A) : Prop :=
  match r with Ok _ => True | Raise _ => False end.

(** ** The sink and the log *)

(** Events of the remote mirror. *)
Definition is_sheet_event (e : event) : Prop :=
  match e with EvGet _ _ => False | _ => True end.

(** The row [csv.DictWriter] writes for a record. *)
Definition csv_row (w : World) (job : Job.t) : list string :=
  DictWriter_row w fieldnames (Job.items job).

(** The log after a successful append of [jobs]. *)
Definition appended (w : World) (log : option (list (list string))) (jobs : list Job.t)
  : list (list string) :=
  match log with
  | None => fieldnames :: (csv_row w <$> jobs)
  | Some rows => rows ++ (csv_row w <$> jobs)
  end.

(** The normalizer returned nothing for the job. *)
Definition skipped (r : outcome (option Job.t) * state) : Prop := r.1 = Ok None.

(** A log this program can have created: absent, or starting with the
    declared header. *)
Definition well_formed_log (log : option (list (list string))) : Prop :=
  log = None ∨ ∃ rows, log = Some (fieldnames :: rows).



(** ** A laboratory: one concrete world to run the program in *)

(** A process that starts with the given log on disk. *)
Definition boot (log : option (list (list string))) : state :=
  {| trace := []; names := ∅; csv_file := log |}.

Module Lab.

Definition no_faults : Faults :=
  {| read_fault := false; disk := DiskOk; sheet := SheetOk |}.

(** A finished job as a printer reports it. *)
Definition job_fields (fields : list (string * pyval)) : list (string * pyval) :=
  fields ++
    [ ("result", PStr "Finished");
      ("datetime_started", PStr "2024-01-02T03:04:05Z");
      ("datetime_finished", PStr "2024-01-02T05:00:00Z");
      ("name", PStr "bracket");
      ("time_total", PInt 6955);
      ("material_0_amount", PInt 1200);
      ("material_1_amount", PInt (-5));
      ("material_0_guid", PStr "506c9f0d");
      ("material_1_guid", PStr "") ].

Definition finished (fields : list (string * pyval)) : pyval :=
  PDict (job_fields fields).

Definition numbered (n : nat) : pyval :=
  finished [("uuid", PStr ("job-" +:+ pretty n))].

Definition pla_xml : string :=
  "<fdmmaterial xmlns='http://www.ultimaker.com/material'><metadata><name>"
  +:+ "<brand>Generic</brand><material>PLA</material></name></metadata></fdmmaterial>".

(** The same document with an empty [material] element. *)
Definition blank_xml : string :=
  "<fdmmaterial xmlns='http://www.ultimaker.com/material'><metadata><name>"
  +:+ "<brand>Generic</brand><material/></name></metadata></fdmmaterial>".

Definition ns (local : string) : string := "{http://www.ultimaker.com/material}" +:+ local.

Definition material_doc (material_text : option string) : element :=
  Element (ns "fdmmaterial") None
    [ Element (ns "metadata") None
        [ Element (ns "name") None
            [ Element (ns "brand") (Some "Generic") [];
              Element (ns "material") material_text [] ] ] ].

Definition started : datetime :=
  {| year := 2024; month := 1; day := 2; hour := 3; minute := 4; second := 5;
     microsecond := 0; utcoffset := Some 0 |}.
Definition ended : datetime :=
  {| year := 2024; month := 1; day := 2; hour := 5; minute := 0; second := 0;
     microsecond := 0; utcoffset := Some 0 |}.

(** Five printers that answer; any other address is unreachable:
    - [10.0.0.1] holds 53 jobs with distinct ids, served as a page of 50
      and a page of 3;
    - [10.0.0.5] holds the first three of them;
    - [10.0.0.2] reports the same job twice;
    - [10.0.0.3] reports a job that has no [uuid];
    - [10.0.0.4] reports one job whose start and one whose finish time is
      not a timestamp. *)
Definition history (address : string) (offset : Z) : option pyval :=
  if String.eqb address "10.0.0.1" then
    if offset =? 0 then Some (PList (numbered <$> seq 0 50))
    else if offset =? 50 then Some (PList (numbered <$> seq 50 3))
    else Some (PList [])
  else if String.eqb address "10.0.0.2" then
    if offset =? 0
    then Some (PList [finished [("uuid", PStr "dup")]; finished [("uuid", PStr "dup")]])
    else Some (PList [])
  else if String.eqb address "10.0.0.3" then
    if offset =? 0 then Some (PList [finished []]) else Some (PList [])
  else if String.eqb address "10.0.0.4" then
    if offset =? 0
    then Some (PList
           [ finished [("uuid", PStr "t1"); ("datetime_started", PStr "yesterday")];
             finished [("uuid", PStr "t2"); ("datetime_finished", PStr "tomorrow")] ])
    else Some (PList [])
  else if String.eqb address "10.0.0.5" then
    if offset =? 0 then Some (PList (numbered <$> seq 0 3)) else Some (PList [])
  else None.

Definition world : World :=
  {| http_get := λ address ep,
       match ep with
       | EpSystem => Some (PDict [("name", PStr "Ultimaker S5")])
       | EpHistory offset _ => history address offset
       | EpMaterial (PStr "506c9f0d") => Some (PStr pla_xml)
       | EpMaterial (PStr "0e01be8c") => Some (PStr blank_xml)
       | EpMaterial _ => None
       end;
     fromisoformat := λ s,
       if String.eqb s "2024-01-02T03:04:05+00:00" then Some started
       else if String.eqb s "2024-01-02T05:00:00+00:00" then Some ended
       else None;
     astimezone_la_isoformat := λ dt,
       if hour dt =? 3 then Some "2024-01-01T19:04:05-08:00"
       else Some "2024-01-01T21:00:00-08:00";
     ET_fromstring := λ s,
       if String.eqb s pla_xml then Some (material_doc (Some "PLA"))
       else if String.eqb s blank_xml then Some (material_doc None)
       else None;
     str_strip := λ s, s;
     container_str := λ _, "" |}.

Definition printer (address : string) : PrinterAPI := {| pid := 0; ip := address |}.

(** The logger [__init__] builds for one address when there is no log. *)
Definition logger (address : string) : UltimakerLogger :=
  {| printers := [printer address]; existing_uuids := ∅ |}.

(** The record of job [job-0]. *)
Definition record_0 : Job.t :=
  {| Job.uuid := PStr "job-0";
     Job.printer_name := PStr "Ultimaker S5";
     Job.date := "2024-01-02";
     Job.datetime_started := PStr "2024-01-01T19:04:05-08:00";
     Job.datetime_finished := PStr "2024-01-01T21:00:00-08:00";
     Job.name := PStr "bracket";
     Job.result := PStr "Finished";
     Job.time_total := PInt 6955;
     Job.material_0_amount := PInt 1200;
     Job.material_1_amount := PInt 0;
     Job.material_0_name := "PLA";
     Job.material_1_name := "Unknown" |}.

Definition logged_row (id : string) : list string :=
  [ id; "Ultimaker S5"; "2024-01-02"; "2024-01-01T19:04:05-08:00";
    "2024-01-01T21:00:00-08:00"; "bracket"; "Finished"; "6955"; "1200"; "0";
    "PLA"; "Unknown" ].

(** A log left by an earlier run that saw [job-0] and [job-1]. *)
Definition old_log : option (list (list string)) :=
  Some [ fieldnames; logged_row "job-0"; logged_row "job-1" ].

End Lab.

(** * More of the program *)

(** ** [_load_printer_ips] *)

(** [line.startswith('#')]. *)
Definition starts_with_hash (line : string) : bool :=
  match line with
  | String c _ => Ascii.eqb c "#"%char
  | EmptyString => false
  end.

(** [[line.strip() for line in f if line.strip() and not line.startswith('#')]]
    over the lines of the IP file; [None] when the file is missing, where
    the program logs an error and calls [exit(1)]. *)
Definition _load_printer_ips (w : World) (ip_file : option (list string))
  : option (list string) :=
  match ip_file with
  | None => None
  | Some lines =>
      Some (str_strip w <$>
              filter (λ line, str_strip w line ≠ "" ∧ starts_with_hash line = false) lines)
  end.

(** ** Vocabulary of the further properties *)

(** Addresses of the [system] requests along a trace. *)
Definition system_requests (tr : list event) : list string :=
  omap (λ e, match e with EvGet a EpSystem => Some a | _ => None end) tr.

(** Anything but a [system] request. *)
Definition not_system_request (e : event) : Prop :=
  match e with EvGet _ EpSystem => False | _ => True end.

(** What the [name] property resolves to when it asks the printer. *)
Definition resolved_name (w : World) (p : PrinterAPI) : pyval :=
  match http_get w (ip p) EpSystem with
  | Some (PDict d) => dict_get_default d "name" (default_name p)
  | _ => default_name p
  end.

(** Printer object [i] has its name: the cell holds something other than
    [None]. *)
Definition name_cached (i : nat) (st : state) : Prop :=
  ∃ v, names st !! i = Some v ∧ v ≠ PNone.

(** Once printer [i] has its name, [m] changes no name cell and emits only
    events in [P]. *)
Definition cachedM {A} (i : nat) (P : event → Prop) (m : M A) : Prop :=
  ∀ st, name_cached i st →
    ∃ o d,
      Forall P d ∧
      m st = (o, {| trace := trace st ++ d; names := names st; csv_file := csv_file st |}).

(** The same for computations with a page loop that return. *)
Definition cachedL {A} (i : nat) (P : event → Prop) (m : L A) : Prop :=
  ∀ st r st', name_cached i st → m st = Some (r, st') →
    ∃ d, Forall P d ∧
         st' = {| trace := trace st ++ d; names := names st; csv_file := csv_file st |}.

(** [[job[field] for field in fieldnames]]: the row sent to the mirror. *)
Definition sheet_row (job : Job.t) : list pyval := snd <$> Job.items job.

(** The batches handed to [append_rows] along a trace, oldest first. *)
Definition sheet_batches (tr : list event) : list (list (list pyval)) :=
  omap (λ e, match e with EvSheetAppend b => Some b | _ => None end) tr.

(** How often [time.sleep] was called along a trace. *)
Definition sleeps (tr : list event) : nat :=
  length (omap (λ e, match e with EvSleep => Some tt | _ => None end) tr).

(** What one turn of the mirror's loop does for the batch starting at row
    [i]: the append, then the pause unless the batch is the last. *)
Definition batch_events (batch_size : nat) (rows : list (list pyval)) (i : nat)
  : list event :=
  EvSheetAppend (take batch_size (drop i rows))
    :: (if (i + batch_size <? length rows)%nat then [EvSleep] else []).

(** [isinstance(v, dict)]. *)
Definition is_dict (v : pyval) : bool :=
  match v with PDict _ => true | _ => false end.

(** No request to the address is ever answered. *)
Definition unreachable (w : World) (address : string) : Prop :=
  ∀ ep, http_get w address ep = None.

(** What the sweep asks of a printer that never answers: its name, then the
    first page of its history. *)
Definition first_requests (address : string) : list event :=
  [EvGet address EpSystem; EvGet address (EpHistory 0 CONFIG.BATCH_SIZE)].


(** ** A second laboratory, with less obliging printers *)

Module Annex.

(** The first moment of the calendar: shifting it west leaves the range of
    [datetime]. *)
Definition dawn : datetime :=
  {| year := 1; month := 1; day := 1; hour := 0; minute := 0; second := 0;
     microsecond := 0; utcoffset := Some 0 |}.

(** A finished job without material references. *)
Definition plain (fields : list (string * pyval)) : list (string * pyval) :=
  fields ++
    [ ("result", PStr "Finished");
      ("datetime_started", PStr "2024-01-02T03:04:05Z");
      ("datetime_finished", PStr "2024-01-02T05:00:00Z");
      ("name", PStr "clip");
      ("time_total", PInt 120);
      ("material_0_amount", PInt 30) ].

(** Three addresses:
    - [10.0.1.1] reports [null] as its name and a job whose [uuid] is a list;
    - [10.0.1.2] reports no name at all, and a page holding a job, a stray
      string and another job;
    - every other address is unreachable. *)
Definition history (address : string) (offset : Z) : option pyval :=
  if String.eqb address "10.0.1.1" then
    if offset =? 0
    then Some (PList [PDict (plain [("uuid", PList [PStr "x"])])])
    else Some (PList [])
  else if String.eqb address "10.0.1.2" then
    if offset =? 0
    then Some (PList [ PDict (plain [("uuid", PStr "a")]); PStr "junk";
                       PDict (plain [("uuid", PStr "b")]) ])
    else Some (PList [])
  else None.

Definition world : World :=
  {| http_get := λ address ep,
       match ep with
       | EpSystem =>
           if String.eqb address "10.0.1.1" then Some (PDict [("name", PNone)])
           else if String.eqb address "10.0.1.2" then Some (PDict [("variant", PStr "S5")])
           else None
       | EpHistory offset _ => history address offset
       | EpMaterial _ => None
       end;
     fromisoformat := λ s,
       if String.eqb s "0001-01-01T00:00:00+00:00" then Some dawn
       else fromisoformat Lab.world s;
     astimezone_la_isoformat := λ dt,
       if year dt =? 1 then None else astimezone_la_isoformat Lab.world dt;
     ET_fromstring := ET_fromstring Lab.world;
     str_strip := λ s, s;
     container_str := λ _, "" |}.

Definition printer (i : nat) (address : string) : PrinterAPI :=
  {| pid := i; ip := address |}.

Definition logger (addresses : list string) : UltimakerLogger :=
  {| printers := imap printer addresses; existing_uuids := ∅ |}.

End Annex.

(** * Properties *)

(** ** Composing computations that leave the log alone *)

Lemma set_csv_same st : set_csv (csv_file st) st = st.
Proof. by destruct st. Qed.

Lemma devM_run {A} P (m : M A) st :
  devM P m →
  ∃ o d n, Forall P d ∧
    m st = (o, {| trace := trace st ++ d; names := n; csv_file := csv_file st |}).
Proof.
  intros H. destruct (H st) as (o & d & n & HP & E).
  exists o, d, n. split; [done|]. by rewrite <- (E (csv_file st)), set_csv_same.
Qed.

Lemma devM_weaken {A} (P Q : event → Prop) (m : M A) :
  (∀ e, P e → Q e) → devM P m → devM Q m.
Proof.
  intros HPQ H st. destruct (H st) as (o & d & n & HP & E).
  exists o, d, n. split; [|done]. eapply Forall_impl; eauto.
Qed.

Lemma devM_ret {A} P (a : A) : devM P (ret a).
Proof.
  intros st. exists (Ok a), [], (names st). split; [constructor|].
  intros c. unfold ret, set_csv. simpl. by rewrite app_nil_r.
Qed.

Lemma devM_raise {A} P e : devM P (@raise A e).
Proof.
  intros st. exists (Raise e), [], (names st). split; [constructor|].
  intros c. unfold raise, set_csv. simpl. by rewrite app_nil_r.
Qed.

Lemma devM_emit (P : event → Prop) e : P e → devM P (emit e).
Proof.
  intros He st. exists (Ok tt), [e], (names st). split; [by repeat constructor|].
  intros c. reflexivity.
Qed.

Lemma devM_bind {A B} P (m : M A) (k : A → M B) :
  devM P m → (∀ a, devM P (k a)) → devM P (bind m k).
Proof.
  intros Hm Hk st. destruct (Hm st) as (o & d & n & HP & E).
  destruct o as [a|e].
  - destruct (Hk a {| trace := trace st ++ d; names := n; csv_file := csv_file st |})
      as (o' & d' & n' & HP' & E').
    exists o', (d ++ d'), n'. split; [by apply Forall_app|].
    intros c. unfold bind. rewrite E. specialize (E' c).
    unfold set_csv in E'. simpl in E'. rewrite E'. by rewrite app_assoc.
  - exists (Raise e), d, n. split; [done|].
    intros c. unfold bind. by rewrite E.
Qed.

Lemma devM_try {A} P (m : M A) catches (h : exn → M A) :
  devM P m → (∀ e, devM P (h e)) → devM P (try_except m catches h).
Proof.
  intros Hm Hh st. destruct (Hm st) as (o & d & n & HP & E).
  destruct o as [a|e].
  - exists (Ok a), d, n. split; [done|]. intros c. unfold try_except. by rewrite E.
  - destruct (catches e) eqn:Hc.
    + destruct (Hh e {| trace := trace st ++ d; names := n; csv_file := csv_file st |})
        as (o' & d' & n' & HP' & E').
      exists o', (d ++ d'), n'. split; [by apply Forall_app|].
      intros c. unfold try_except. rewrite E, Hc. specialize (E' c).
      unfold set_csv in E'. simpl in E'. rewrite E'. by rewrite app_assoc.
    + exists (Raise e), d, n. split; [done|].
      intros c. unfold try_except. by rewrite E, Hc.
Qed.

Create HintDb dev.
#[local] Hint Resolve devM_ret devM_raise devM_bind devM_try : dev.

(** Solves [devM] goals for straight-line code made of the combinators. *)
Ltac dev_step :=
  first [ apply devM_ret | apply devM_raise | apply devM_bind | apply devM_try
        | progress intros | case_match ].
Ltac dev_auto := repeat dev_step; eauto with dev.

Lemma is_side_get_is_get e : is_side_get e → is_get e.
Proof. by destruct e. Qed.

Section DeviceFacts.
Context (w : World).

Lemma make_request_dev (P : event → Prop) p ep :
  P (EvGet (ip p) ep) → devM P (make_request w p ep).
Proof.
  intros HP. unfold make_request. apply devM_try; [|dev_auto].
  apply devM_bind; [by apply devM_emit|]. dev_auto.
Qed.

Lemma name_dev (P : event → Prop) p :
  P (EvGet (ip p) EpSystem) → devM P (name w p).
Proof.
  intros HP st.
  destruct (make_request_dev P p EpSystem HP st) as (o & d & n & Hd & E).
  destruct (default PNone (names st !! pid p)) eqn:Hc.
  1: { destruct o as [response|e]; eexists _, d, _; (split; [done|]); intros c;
         unfold name; simpl; rewrite Hc; unfold bind; rewrite E;
         unfold set_name; simpl; reflexivity. }
  all: eexists _, [], _; (split; [constructor|]); intros c;
    unfold name; simpl; rewrite Hc, app_nil_r; reflexivity.
Qed.

Lemma get_material_name_dev (P : event → Prop) p guid :
  P (EvGet (ip p) (EpMaterial guid)) → devM P (get_material_name w p guid).
Proof.
  intros HP. unfold get_material_name. case_match; [dev_auto|].
  apply devM_try; [|dev_auto].
  apply devM_bind; [by apply make_request_dev|]. dev_auto.
Qed.

Lemma _convert_to_pst_dev P v : devM P (_convert_to_pst w v).
Proof. unfold _convert_to_pst, py_replace_Z, py_fromisoformat. dev_auto. Qed.

Lemma py_max0_dev P v : devM P (py_max0 v).
Proof. unfold py_max0. dev_auto. Qed.

Lemma _process_print_job_dev p job : devM is_side_get (_process_print_job w p job).
Proof.
  unfold _process_print_job. case_match; [dev_auto|].
  apply devM_try; [|dev_auto].
  apply devM_bind.
  { unfold py_replace_Z, py_fromisoformat. dev_auto. }
  intros start_date. apply devM_bind; [by apply name_dev|]. intros pn.
  do 2 (apply devM_bind; [apply _convert_to_pst_dev|]; intros ?).
  do 2 (apply devM_bind; [apply py_max0_dev|]; intros ?).
  do 2 (apply devM_bind; [by apply get_material_name_dev|]; intros ?).
  apply devM_ret.
Qed.

Lemma py_not_in_dev P v s : devM P (py_not_in v s).
Proof. unfold py_not_in. dev_auto. Qed.

Lemma for_jobs_dev self p history all_print_jobs :
  devM is_side_get (for_jobs w self p history all_print_jobs).
Proof.
  revert all_print_jobs. induction history as [|job rest IH]; intros acc; simpl.
  - apply devM_ret.
  - apply devM_bind; [|done].
    destruct job; try apply devM_ret.
    apply devM_bind; [apply _process_print_job_dev|].
    intros [pj|]; [|apply devM_ret].
    apply devM_bind; [apply py_not_in_dev|]. intros []; apply devM_ret.
Qed.

End DeviceFacts.

Lemma devL_lift {A} P (m : M A) : devM P m → devL P (lift m).
Proof.
  intros H st. right. destruct (H st) as (o & d & n & HP & E).
  exists o, d, n. split; [done|]. intros c. unfold lift. by rewrite E.
Qed.

Lemma devL_bind {A B} P (m : L A) (k : A → L B) :
  devL P m → (∀ a, devL P (k a)) → devL P (bindL m k).
Proof.
  intros Hm Hk st. destruct (Hm st) as [E|(o & d & n & HP & E)].
  { left. intros c. unfold bindL. by rewrite E. }
  destruct o as [a|e].
  - destruct (Hk a {| trace := trace st ++ d; names := n; csv_file := csv_file st |})
      as [E'|(o' & d' & n' & HP' & E')].
    + left. intros c. unfold bindL. rewrite E. apply (E' c).
    + right. exists o', (d ++ d'), n'. split; [by apply Forall_app|].
      intros c. unfold bindL. rewrite E. specialize (E' c).
      unfold set_csv in E'. simpl in E'. rewrite E'. by rewrite app_assoc.
  - right. exists (Raise e), d, n. split; [done|].
    intros c. unfold bindL. by rewrite E.
Qed.

Lemma devL_run {A} P (m : L A) st r st' :
  devL P m → m st = Some (r, st') →
  ∃ d n, Forall P d ∧
    st' = {| trace := trace st ++ d; names := n; csv_file := csv_file st |} ∧
    ∀ c, m (set_csv c st) = Some (r, set_csv c st').
Proof.
  intros H Hrun. destruct (H st) as [E|(o & d & n & HP & E)].
  - specialize (E (csv_file st)). rewrite set_csv_same in E. congruence.
  - pose proof (E (csv_file st)) as E0. rewrite set_csv_same in E0.
    rewrite Hrun in E0. injection E0 as -> ->.
    exists d, n. split; [done|]. split; [done|]. intros c. by rewrite E.
Qed.

Section SweepFacts.
Context (w : World).

Lemma fetch_pages_dev fuel self p offset all_print_jobs :
  devL is_get (fetch_pages w fuel self p offset all_print_jobs).
Proof.
  revert offset all_print_jobs.
  induction fuel as [|fuel IH]; intros offset acc; simpl.
  - intros st. by left.
  - apply devL_bind.
    { apply devL_lift. by apply make_request_dev. }
    intros history. destruct history; try (apply devL_lift, devM_ret).
    apply devL_bind.
    { apply devL_lift. eapply devM_weaken; [apply is_side_get_is_get|].
      apply for_jobs_dev. }
    intros acc'. case_match; [apply devL_lift, devM_ret|apply IH].
Qed.

Lemma for_printers_dev fuel self ps all_print_jobs :
  devL is_get (for_printers w fuel self ps all_print_jobs).
Proof.
  revert all_print_jobs. induction ps as [|p ps IH]; intros acc; simpl.
  - apply devL_lift, devM_ret.
  - apply devL_bind; [apply devL_lift; by apply name_dev|]. intros _.
    apply devL_bind; [apply fetch_pages_dev|]. intros acc'. apply IH.
Qed.

Lemma collect_batch_dev fuel self : devL is_get (collect_batch w fuel self).
Proof. apply for_printers_dev. Qed.

End SweepFacts.

(** ** Inversion of the monadic combinators *)

Lemma bind_Ok_inv {A B} (m : M A) (k : A → M B) st b st' :
  bind m k st = (Ok b, st') →
  ∃ a st1, m st = (Ok a, st1) ∧ k a st1 = (Ok b, st').
Proof.
  unfold bind. destruct (m st) as [[a|e] st1]; [eauto|discriminate].
Qed.

Lemma try_except_Ok_inv {A} (m : M A) catches (h : exn → M A) st a st' :
  try_except m catches h st = (Ok a, st') →
  m st = (Ok a, st') ∨
  ∃ e st1, m st = (Raise e, st1) ∧ catches e = true ∧ h e st1 = (Ok a, st').
Proof.
  unfold try_except. destruct (m st) as [[a'|e] st1]; [by left|].
  destruct (catches e) eqn:Hc; [|discriminate]. right. eauto.
Qed.

Lemma bind_run {A B} (m : M A) (k : A → M B) st :
  bind m k st
  = match m st with
    | (Ok a, st') => k a st'
    | (Raise e, st') => (Raise e, st')
    end.
Proof. reflexivity. Qed.

Ltac bind_inv H :=
  let a := fresh "a" in
  let st := fresh "st" in
  let H1 := fresh "Hrun" in
  apply bind_Ok_inv in H as (a & st & H1 & H).

(** ** What a normalized record says about the raw job it came from *)

Section NormalizerFacts.
Context (w : World).

Lemma in_terminal_spec v :
  in_terminal v = true ↔ v = PStr "Finished" ∨ v = PStr "Aborted".
Proof.
  split.
  - destruct v; try discriminate. simpl. intros H.
    apply orb_true_iff in H as [H|H]; apply String.eqb_eq in H; subst; auto.
  - by intros [-> | ->].
Qed.

Lemma _process_print_job_inv p job st pj st' :
  _process_print_job w p job st = (Ok (Some pj), st') →
  in_terminal (dict_get job "result") = true ∧
  Job.uuid pj = dict_get_default job "uuid" (PStr "") ∧
  Job.result pj = dict_get_default job "result" (PStr "") ∧
  (∃ s1 s2, _convert_to_pst w (dict_get_default job "datetime_started" (PStr "")) s1
            = (Ok (Job.datetime_started pj), s2)) ∧
  (∃ s1 s2, _convert_to_pst w (dict_get_default job "datetime_finished" (PStr "")) s1
            = (Ok (Job.datetime_finished pj), s2)).
Proof.
  unfold _process_print_job.
  destruct (in_terminal (dict_get job "result")) eqn:Hterm; simpl; [|discriminate].
  intros H. apply try_except_Ok_inv in H as [H|(e & st1 & _ & _ & H)];
    [|discriminate].
  bind_inv H. bind_inv H. bind_inv H. bind_inv H.
  bind_inv H. bind_inv H. bind_inv H. bind_inv H.
  injection H as <- <-. simpl. eauto 10.
Qed.

Lemma _process_print_job_terminal p job st pj st' :
  _process_print_job w p job st = (Ok (Some pj), st') →
  Job.result pj = PStr "Finished" ∨ Job.result pj = PStr "Aborted".
Proof.
  intros H. apply _process_print_job_inv in H as (Hterm & _ & Hres & _).
  rewrite Hres. unfold dict_get, dict_get_default in *.
  destruct (dict_lookup "result" job); simpl in *; [|discriminate].
  by apply in_terminal_spec.
Qed.

End NormalizerFacts.

(** ** Deduplication against the ids known at startup *)

Section DedupFacts.
Context (w : World).



End DedupFacts.

Section DedupSweep.
Context (w : World).




End DedupSweep.

(** ** The ids loaded at startup *)

Section LoadFacts.
Context (f : Faults).

Lemma uuid_comprehension_nonempty header rows s :
  uuid_comprehension header rows = Ok s → "" ∉ s.
Proof.
  revert s. induction rows as [|row rest IH]; intros s; simpl.
  - intros ?; simplify_eq. set_solver.
  - destruct row as [|c0 row]; [apply IH|].
    destruct (DictReader_uuid header (c0 :: row)) as [cell|e]; [|discriminate].
    destruct (uuid_comprehension header rest) as [s'|e]; [|discriminate].
    specialize (IH s' eq_refl).
    destruct cell as [c|]; [|by intros ?; simplify_eq].
    destruct (String.eqb c "") eqn:Hc; intros ?; simplify_eq; [done|].
    apply String.eqb_neq in Hc.
    rewrite not_elem_of_union, not_elem_of_singleton. split; [congruence|done].
Qed.

Lemma read_log_nonempty st s : read_log f st = Ok s → "" ∉ s.
Proof.
  unfold read_log. destruct (csv_file st) as [rows|]; [|intros ?; simplify_eq; set_solver].
  destruct (read_fault f); [discriminate|].
  destruct rows as [|header data]; [intros ?; simplify_eq; set_solver|].
  apply uuid_comprehension_nonempty.
Qed.

Lemma loaded_uuids_nonempty st : "" ∉ loaded_uuids f st.
Proof.
  unfold loaded_uuids. destruct (read_log f st) eqn:E; [|set_solver].
  by eapply read_log_nonempty.
Qed.

Lemma _load_existing_uuids_spec self st :
  _load_existing_uuids f self st
  = (Ok {| printers := printers self; existing_uuids := loaded_uuids f st |}, st).
Proof.
  unfold _load_existing_uuids, try_except, loaded_uuids.
  by destruct (read_log f st).
Qed.

Lemma __init___spec printer_ips st :
  __init__ f printer_ips st
  = (Ok {| printers := imap (λ i a, {| pid := i; ip := a |}) printer_ips;
           existing_uuids := loaded_uuids f st |}, st).
Proof. unfold __init__. by rewrite _load_existing_uuids_spec. Qed.

End LoadFacts.

(** ** C1 *)


(** ** Where the records of a batch come from *)

Section Provenance.
Context (w : World).

Lemma for_jobs_grows self p history acc st acc' st' :
  for_jobs w self p history acc st = (Ok acc', st') →
  ∃ new, acc' = acc ++ new ∧ Forall (normalized w) new.
Proof.
  revert acc st. induction history as [|job rest IH]; intros acc st; simpl.
  - intros [= <- <-]. exists []. by rewrite app_nil_r.
  - intros H. bind_inv H.
    apply IH in H as (new & -> & Hnew).
    destruct job as [| | | | |d]; try (injection Hrun as <- <-; eauto).
    bind_inv Hrun. destruct a0 as [pj|]; [|injection Hrun as <- <-; eauto].
    bind_inv Hrun. destruct a0; injection Hrun as <- <-; [|eauto].
    exists (pj :: new). rewrite <- app_assoc. split; [done|].
    constructor; [|done]. by exists p, d, st, st1.
Qed.

Lemma fetch_pages_grows fuel self p offset acc st acc' st' :
  fetch_pages w fuel self p offset acc st = Some (Ok acc', st') →
  ∃ new, acc' = acc ++ new ∧ Forall (normalized w) new.
Proof.
  revert offset acc st.
  induction fuel as [|fuel IH]; intros offset acc st; simpl; [done|].
  unfold bindL, lift.
  destruct (make_request w p (EpHistory offset CONFIG.BATCH_SIZE) st)
    as [[history|e] st1]; [|done].
  destruct history as [| | | |l|];
    try (intros [= <- <-]; exists []; by rewrite app_nil_r).
  destruct (for_jobs w self p l acc st1) as [[acc1|e] st2] eqn:Hjobs; [|done].
  apply for_jobs_grows in Hjobs as (new1 & -> & Hnew1).
  destruct (Z.of_nat (length l) <? CONFIG.BATCH_SIZE).
  - intros [= <- <-]. eauto.
  - intros Hrest. apply IH in Hrest as (new2 & -> & Hnew2).
    exists (new1 ++ new2). rewrite app_assoc. split; [done|].
    by apply Forall_app.
Qed.

Lemma for_printers_grows fuel self ps acc st acc' st' :
  for_printers w fuel self ps acc st = Some (Ok acc', st') →
  ∃ new, acc' = acc ++ new ∧ Forall (normalized w) new.
Proof.
  revert acc st. induction ps as [|p ps IH]; intros acc st; simpl.
  - intros [= <- <-]. exists []. by rewrite app_nil_r.
  - unfold bindL at 1. unfold lift.
    destruct (name w p st) as [[pn|e] st1]; [|done].
    unfold bindL.
    destruct (fetch_pages w fuel self p 0 acc st1) as [[[acc1|e] st2]|] eqn:Hp;
      [|done|done].
    apply fetch_pages_grows in Hp as (new1 & -> & Hnew1).
    intros H. apply IH in H as (new2 & -> & Hnew2).
    exists (new1 ++ new2). rewrite app_assoc. split; [done|].
    by apply Forall_app.
Qed.

Lemma collect_batch_normalized fuel self st batch st' :
  collect_batch w fuel self st = Some (Ok batch, st') →
  Forall (normalized w) batch.
Proof.
  intros H. by apply for_printers_grows in H as (new & -> & Hnew).
Qed.

End Provenance.

(** ** The program at work in the laboratory *)

Example lab_init address :
  __init__ Lab.no_faults [address] (boot None) = (Ok (Lab.logger address), boot None).
Proof. reflexivity. Qed.

Example lab_53_records :
  ∃ batch st,
    collect_batch Lab.world 2 (Lab.logger "10.0.0.1") (boot None) = Some (Ok batch, st)
    ∧ length batch = 53%nat.
Proof. eexists _, _. split; [vm_compute; reflexivity|reflexivity]. Qed.

(** The sweep of printer [10.0.0.1] asks for the pages at offsets 0 and 50,
    and nothing else of the history. *)
Example lab_two_pages :
  ∃ batch st,
    collect_batch Lab.world 2 (Lab.logger "10.0.0.1") (boot None) = Some (Ok batch, st)
    ∧ history_offsets (trace st) = [0; 50].
Proof. eexists _, _. split; [vm_compute; reflexivity|reflexivity]. Qed.

(** ** C3 *)



(** ** C4 *)

(** C4. A raw job whose [result] is neither ['Finished'] nor ['Aborted']
    (a missing [result] reads as [None]) is normalized to nothing, leaving
    the state as it was; and every record of a batch has one of these two
    results. *)
Theorem C4_non_terminal_jobs_are_skipped
  (w : World) (p : PrinterAPI) (job : list (string * pyval)) (st : state)
  (fuel : nat) (self : UltimakerLogger) (st0 : state)
  (batch : list Job.t) (st' : state) :
  (dict_get job "result" ≠ PStr "Finished" →
   dict_get job "result" ≠ PStr "Aborted" →
   _process_print_job w p job st = (Ok None, st))
  ∧ (collect_batch w fuel self st0 = Some (Ok batch, st') →
     Forall (λ r, Job.result r = PStr "Finished" ∨ Job.result r = PStr "Aborted") batch).
Proof.
  split.
  - intros H1 H2. unfold _process_print_job.
    destruct (in_terminal (dict_get job "result")) eqn:E; [|done].
    apply in_terminal_spec in E as [E|E]; [by destruct H1|by destruct H2].
  - intros H. apply collect_batch_normalized in H.
    eapply Forall_impl; [exact H|].
    intros r (p' & job' & s1 & s2 & Hr). by eapply _process_print_job_terminal.
Qed.

(** ** C5: the page loop *)

Lemma first_true (b : nat → bool) (n : nat) :
  b n = true →
  ∃ k, (k ≤ n)%nat ∧ b k = true ∧ ∀ i, (i < k)%nat → b i = false.
Proof.
  revert b. induction n as [|n IH]; intros b Hn.
  - exists 0%nat. split; [lia|]. split; [done|]. intros i Hi. lia.
  - destruct (b 0%nat) eqn:H0.
    + exists 0%nat. split; [lia|]. split; [done|]. intros i Hi. lia.
    + destruct (IH (λ i, b (S i)) Hn) as (k & Hk & Hbk & Hbefore).
      exists (S k). split; [lia|]. split; [done|].
      intros [|i] Hi; [done|]. apply Hbefore. lia.
Qed.

Section PageLoop.
Context (w : World).

Lemma make_request_run p ep st :
  make_request w p ep st
  = (Ok (default (PDict []) (http_get w (ip p) ep)), emit_event (EvGet (ip p) ep) st).
Proof.
  unfold make_request, try_except, bind, emit.
  by destruct (http_get w (ip p) ep).
Qed.

Lemma history_offsets_app a b :
  history_offsets (a ++ b) = history_offsets a ++ history_offsets b.
Proof. apply omap_app. Qed.

Lemma history_offsets_side d : Forall is_side_get d → history_offsets d = [].
Proof.
  induction 1 as [|e d He _ IH]; [done|].
  destruct e as [a ep| | |]; try done.
  destruct ep; try done; exact IH.
Qed.

Lemma for_jobs_history_offsets self p l acc st :
  history_offsets (trace (for_jobs w self p l acc st).2) = history_offsets (trace st).
Proof.
  destruct (devM_run _ _ st (for_jobs_dev w self p l acc)) as (o & d & n & Hd & E).
  rewrite E. simpl.
  by rewrite history_offsets_app, (history_offsets_side d Hd), app_nil_r.
Qed.

Lemma history_offsets_request p offset st :
  history_offsets
    (trace (emit_event (EvGet (ip p) (EpHistory offset CONFIG.BATCH_SIZE)) st))
  = history_offsets (trace st) ++ [offset].
Proof. simpl. by rewrite history_offsets_app. Qed.

(** One turn of the [while True] loop. *)
Lemma fetch_pages_unfold fuel self p offset acc st :
  fetch_pages w (S fuel) self p offset acc st
  = match http_get w (ip p) (EpHistory offset CONFIG.BATCH_SIZE) with
    | Some (PList l) =>
        match for_jobs w self p l acc
                (emit_event (EvGet (ip p) (EpHistory offset CONFIG.BATCH_SIZE)) st) with
        | (Ok acc', st2) =>
            if Z.of_nat (length l) <? CONFIG.BATCH_SIZE then Some (Ok acc', st2)
            else fetch_pages w fuel self p (offset + CONFIG.BATCH_SIZE) acc' st2
        | (Raise e, st2) => Some (Raise e, st2)
        end
    | _ => Some (Ok acc, emit_event (EvGet (ip p) (EpHistory offset CONFIG.BATCH_SIZE)) st)
    end.
Proof.
  simpl. unfold bindL, lift. rewrite make_request_run.
  destruct (http_get w (ip p) (EpHistory offset CONFIG.BATCH_SIZE)) as [v|];
    [|done].
  destruct v; try done. simpl.
  destruct (for_jobs w self p l acc _) as [[acc'|e] st2]; [|done].
  by destruct (Z.of_nat (length l) <? CONFIG.BATCH_SIZE).
Qed.

Lemma seq_shifted_offsets (offset : Z) (n : nat) :
  (λ i, offset + CONFIG.BATCH_SIZE * Z.of_nat i) <$> seq 0 (S n)
  = [offset] ++
      ((λ i, offset + CONFIG.BATCH_SIZE + CONFIG.BATCH_SIZE * Z.of_nat i) <$> seq 0 n).
Proof.
  change (seq 0 (S n)) with (0%nat :: seq 1 n).
  rewrite fmap_cons, <- fmap_S_seq, <- list_fmap_compose.
  simpl. f_equal; [lia|]. apply list_fmap_ext. intros _ i _. simpl. lia.
Qed.

(** From [offset] on, if the [k]-th page is the first short one, the loop
    asks for the pages at [offset], [offset + 50], ... and returns after
    at most [k + 1] requests -- after exactly that many unless an
    exception ends it sooner. *)
Lemma fetch_pages_stops self p k :
  ∀ fuel offset acc st,
    (k < fuel)%nat →
    short_page (http_get w (ip p)
      (EpHistory (offset + CONFIG.BATCH_SIZE * Z.of_nat k) CONFIG.BATCH_SIZE)) = true →
    (∀ i, (i < k)%nat →
       short_page (http_get w (ip p)
         (EpHistory (offset + CONFIG.BATCH_SIZE * Z.of_nat i) CONFIG.BATCH_SIZE)) = false) →
    ∃ r st' j,
      fetch_pages w fuel self p offset acc st = Some (r, st') ∧
      (j ≤ k)%nat ∧
      history_offsets (trace st')
      = history_offsets (trace st)
          ++ ((λ i, offset + CONFIG.BATCH_SIZE * Z.of_nat i) <$> seq 0 (S j)) ∧
      (is_Ok r → j = k).
Proof.
  induction k as [|k IH]; intros fuel offset acc st Hfuel Hshort Hfull.
  all: destruct fuel as [|fuel]; [lia|].
  all: pose proof (history_offsets_request p offset st) as Hreq.
  all: pose proof (fetch_pages_unfold fuel self p offset acc st) as Hstep.
  all: set (st1 := emit_event (EvGet (ip p) (EpHistory offset CONFIG.BATCH_SIZE)) st) in *.
  - replace (offset + CONFIG.BATCH_SIZE * Z.of_nat 0) with offset in Hshort by lia.
    assert (Hone : (λ i, offset + CONFIG.BATCH_SIZE * Z.of_nat i) <$> seq 0 1 = [offset]).
    { simpl. f_equal. lia. }
    destruct (http_get w (ip p) (EpHistory offset CONFIG.BATCH_SIZE))
      as [[| | | |l|]|];
      try (exists (Ok acc), st1, 0%nat; rewrite Hone; by repeat split).
    pose proof (for_jobs_history_offsets self p l acc st1) as Hjobs.
    destruct (for_jobs w self p l acc st1) as [[acc'|e] st2].
    + simpl in Hshort. rewrite Hshort in Hstep.
      exists (Ok acc'), st2, 0%nat. rewrite Hone. split; [done|].
      split; [done|]. split; [|done]. cbn [snd] in Hjobs. by rewrite Hjobs.
    + exists (Raise e), st2, 0%nat. rewrite Hone. split; [done|].
      split; [done|]. split; [|done]. cbn [snd] in Hjobs. by rewrite Hjobs.
  - pose proof (Hfull 0%nat ltac:(lia)) as Hfirst.
    replace (offset + CONFIG.BATCH_SIZE * Z.of_nat 0) with offset in Hfirst by lia.
    destruct (http_get w (ip p) (EpHistory offset CONFIG.BATCH_SIZE))
      as [[| | | |l|]|]; try discriminate Hfirst.
    pose proof (for_jobs_history_offsets self p l acc st1) as Hjobs.
    destruct (for_jobs w self p l acc st1) as [[acc'|e] st2]; cbn [snd] in Hjobs.
    + simpl in Hfirst. rewrite Hfirst in Hstep.
      destruct (IH fuel (offset + CONFIG.BATCH_SIZE) acc' st2)
        as (r & st' & j & Hrun & Hj & Htr & Hok).
      * lia.
      * rewrite <- Hshort. do 3 f_equal. lia.
      * intros i Hi. rewrite <- (Hfull (S i)) by lia. do 3 f_equal. lia.
      * exists r, st', (S j). split; [by rewrite Hstep|]. split; [lia|].
        split; [|intros Hr; by rewrite Hok].
        rewrite Htr, Hjobs, Hreq, <- app_assoc. f_equal.
        rewrite (seq_shifted_offsets offset (S j)). done.
    + exists (Raise e), st2, 0%nat. split; [done|]. split; [lia|].
      split; [|done]. rewrite Hjobs, Hreq. simpl. do 2 f_equal. lia.
Qed.

End PageLoop.

(** C5. If some page of printer [p] is short (fewer than [BATCH_SIZE]
    records, an empty page, or no list at all), the page loop terminates:
    with [k] the first short page, any supply of more than [k] iterations
    lets [fetch_pages] return, the pages it requested are those at offsets
    [0, 50, ..., 50 * j] in this order, with [j <= k], and [j = k] unless an
    exception ended the loop before the short page was reached. *)
Theorem C5_page_loop_terminates
  (w : World) (self : UltimakerLogger) (p : PrinterAPI)
  (acc : list Job.t) (st : state) (n : nat) :
  short_page (page w p n) = true →
  ∃ k,
    (k ≤ n)%nat ∧ short_page (page w p k) = true ∧
    (∀ i, (i < k)%nat → short_page (page w p i) = false) ∧
    ∀ fuel, (k < fuel)%nat →
      ∃ r st' j,
        fetch_pages w fuel self p 0 acc st = Some (r, st') ∧
        (j ≤ k)%nat ∧
        history_offsets (trace st')
        = history_offsets (trace st)
            ++ ((λ i, CONFIG.BATCH_SIZE * Z.of_nat i) <$> seq 0 (S j)) ∧
        (is_Ok r → j = k).
Proof.
  intros Hn.
  destruct (first_true (λ i, short_page (page w p i)) n Hn) as (k & Hk & Hshort & Hfull).
  exists k. split; [done|]. split; [done|]. split; [done|].
  intros fuel Hfuel.
  destruct (fetch_pages_stops w self p k fuel 0 acc st Hfuel) as (r & st' & j & H).
  - exact Hshort.
  - exact Hfull.
  - by exists r, st', j.
Qed.

(** ** The sink: C6 and C9 *)


(** A [try] block that starts by emitting [e] and whose handler swallows
    every exception. *)
Lemma try_all_emit_first P e (rest : unit → M unit) st :
  (∀ u, devM P (rest u)) →
  ∃ d n,
    try_except (let* u := emit e in rest u) is_Exception (λ _, ret tt) st
    = (Ok tt, {| trace := trace st ++ e :: d; names := n; csv_file := csv_file st |}).
Proof.
  intros Hrest.
  destruct (devM_run _ _ (emit_event e st) (Hrest tt)) as (o & d & n & _ & E).
  exists d, n. unfold try_except. rewrite bind_run. unfold emit at 1.
  rewrite E. simpl. rewrite <- app_assoc. by destruct o as [[]|?].
Qed.

Section SinkFacts.
Context (w : World) (f : Faults).

Lemma mapM_dev {A B} P (g : A → M B) l :
  (∀ x, devM P (g x)) → devM P (mapM g l).
Proof. intros Hg. induction l; simpl; dev_auto. Qed.

Lemma forM_dev {A} P (l : list A) (body : A → M unit) :
  (∀ x, devM P (body x)) → devM P (forM l body).
Proof. intros Hb. induction l; simpl; dev_auto. Qed.

(** The mirror never raises and never touches the log; its first effect
    is [EvSheetOpen]. *)
Lemma _update_google_sheets_run jobs names batch_size st :
  ∃ d n,
    _update_google_sheets f jobs names batch_size st
    = (Ok tt, {| trace := trace st ++ EvSheetOpen :: d; names := n;
                 csv_file := csv_file st |}).
Proof.
  unfold _update_google_sheets.
  apply (try_all_emit_first is_sheet_event). intros _.
  apply devM_bind; [dev_auto|]. intros _. apply devM_bind.
  { apply mapM_dev. intros job. apply mapM_dev. intros field.
    unfold py_getitem. dev_auto. }
  intros rows. apply devM_bind; [unfold py_range; dev_auto|]. intros starts.
  apply forM_dev. intros i. apply devM_bind.
  - unfold append_rows. repeat case_match; try apply devM_raise; by apply devM_emit.
  - intros _. case_match; [by apply devM_emit|apply devM_ret].
Qed.

Lemma appended_eq log jobs :
  (if bool_decide (is_Some log) then default [] log else [])
    ++ ((if bool_decide (is_Some log) then [] else [fieldnames])
          ++ map (λ job, DictWriter_row w fieldnames (Job.items job)) jobs)
  = appended w log jobs.
Proof. by destruct log. Qed.

Lemma _save_jobs_run jobs st :
  _save_jobs w f jobs st
  = match disk f with
    | OpenFails => (Ok tt, st)
    | WriteFails n =>
        (Ok tt,
         set_csv (Some (default [] (csv_file st) ++
                        take n ((if bool_decide (is_Some (csv_file st)) then []
                                 else [fieldnames]) ++ (csv_row w <$> jobs)))) st)
    | DiskOk =>
        _update_google_sheets f jobs fieldnames 100
          (set_csv (Some (appended w (csv_file st) jobs)) st)
    end.
Proof.
  unfold _save_jobs, try_except. rewrite !bind_run. unfold write_csv.
  destruct (disk f) eqn:Hd; lazy beta iota.
  - rewrite appended_eq.
    destruct (_update_google_sheets_run jobs fieldnames 100
      (set_csv (Some (appended w (csv_file st) jobs)) st)) as (d & n & E).
    by rewrite E.
  - done.
  - unfold ret. do 3 f_equal. by destruct (csv_file st).
Qed.

End SinkFacts.

(** C6. [_save_jobs] itself never raises.  When the local append raises
    (the log cannot be opened, or the write fails part-way) the mirror is
    not attempted: no effect is added to the trace.  When the local append
    succeeds the mirror is attempted after it, and whatever happens there
    the log holds the appended rows.  The mirror on its own never raises
    and leaves the log as it found it. *)
Theorem C6_mirror_follows_local_append
  (w : World) (f : Faults) (jobs : list Job.t) (st : state) :
  (_save_jobs w f jobs st).1 = Ok tt
  ∧ match disk f with
    | DiskOk =>
        csv_file (_save_jobs w f jobs st).2 = Some (appended w (csv_file st) jobs)
        ∧ ∃ d, trace (_save_jobs w f jobs st).2 = trace st ++ EvSheetOpen :: d
    | OpenFails | WriteFails _ =>
        trace (_save_jobs w f jobs st).2 = trace st
    end
  ∧ ∀ names batch_size st0,
      (_update_google_sheets f jobs names batch_size st0).1 = Ok tt
      ∧ csv_file (_update_google_sheets f jobs names batch_size st0).2 = csv_file st0.
Proof.
  rewrite _save_jobs_run. split; [|split].
  - destruct (disk f); try done.
    destruct (_update_google_sheets_run f jobs fieldnames 100
      (set_csv (Some (appended w (csv_file st) jobs)) st)) as (d & n & E).
    by rewrite E.
  - destruct (disk f); try done.
    destruct (_update_google_sheets_run f jobs fieldnames 100
      (set_csv (Some (appended w (csv_file st) jobs)) st)) as (d & n & E).
    rewrite E. simpl. eauto.
  - intros names batch_size st0.
    destruct (_update_google_sheets_run f jobs names batch_size st0) as (d & n & E).
    by rewrite E.
Qed.

(** C9. With a working disk, saving a batch when there is no log creates it
    as the header row followed by the data rows, and saving when the log
    exists appends the data rows to the rows already there.  Under any
    fault the rows already in the log stay in place as a prefix.  A run
    whose batch is empty does not call the sink: the log is as it was. *)
Theorem C9_header_once_then_append_only
  (w : World) (f : Faults) (jobs : list Job.t) (st : state)
  (fuel : nat) (self : UltimakerLogger) (st0 st1 : state) :
  (disk f = DiskOk →
   csv_file (_save_jobs w f jobs st).2
   = Some match csv_file st with
          | None => fieldnames :: (csv_row w <$> jobs)
          | Some rows => rows ++ (csv_row w <$> jobs)
          end)
  ∧ (∀ rows, csv_file st = Some rows →
       ∃ more, csv_file (_save_jobs w f jobs st).2 = Some (rows ++ more))
  ∧ (collect_batch w fuel self st0 = Some (Ok [], st1) →
     collect_logs w f fuel self st0 = Some (Ok tt, st1)
     ∧ csv_file st1 = csv_file st0).
Proof.
  split; [|split].
  - intros Hd. rewrite _save_jobs_run, Hd.
    destruct (_update_google_sheets_run f jobs fieldnames 100
      (set_csv (Some (appended w (csv_file st) jobs)) st)) as (d & n & E).
    by rewrite E.
  - intros rows Hrows. rewrite _save_jobs_run.
    destruct (disk f).
    + destruct (_update_google_sheets_run f jobs fieldnames 100
        (set_csv (Some (appended w (csv_file st) jobs)) st)) as (d & n & E).
      rewrite E. simpl. rewrite Hrows. simpl. eauto.
    + exists []. by rewrite app_nil_r.
    + simpl. rewrite Hrows. simpl. eauto.
  - intros Hbatch. split.
    + unfold collect_logs, bindL. by rewrite Hbatch.
    + apply (devL_run _ _ _ _ _ (collect_batch_dev w fuel self)) in Hbatch
        as (d & n & _ & -> & _).
      done.
Qed.

(** ** C7: material names *)

Section MaterialFacts.
Context (w : World).




(** The [material] element is there but has no text: [None.strip()]. *)
Lemma get_material_name_no_text p guid xml root el st :
  truthy guid = true →
  http_get w (ip p) (EpMaterial guid) = Some (PStr xml) →
  ET_fromstring w xml = Some root →
  element_find_descendant material_tag root = Some el →
  element_text el = None →
  get_material_name w p guid st
  = (Raise AttributeError, emit_event (EvGet (ip p) (EpMaterial guid)) st).
Proof.
  intros H Hdoc Hroot Hel Htext. unfold get_material_name, try_except.
  rewrite H. simpl. rewrite bind_run, make_request_run, Hdoc. simpl.
  rewrite !bind_run. rewrite Hroot. simpl. by rewrite Hel, Htext.
Qed.

End MaterialFacts.

(** C7 fails on the code: for the GUID [0e01be8c] the laboratory printer
    answers with a material document whose [material] element is empty, and
    [get_material_name] raises [AttributeError]. *)
Lemma C7_get_material_name_raises :
  http_get Lab.world "10.0.0.1" (EpMaterial (PStr "0e01be8c")) = Some (PStr Lab.blank_xml)
  ∧ ET_fromstring Lab.world Lab.blank_xml = Some (Lab.material_doc None)
  ∧ (get_material_name Lab.world (Lab.printer "10.0.0.1") (PStr "0e01be8c") (boot None)).1
    = Raise AttributeError.
Proof. split; [reflexivity|]. split; [reflexivity|]. vm_compute. reflexivity. Qed.

(** ** C8: timestamps *)

(** Runs the next computation of two normalizations that go in step. *)
Ltac step_both :=
  rewrite ?bind_run;
  match goal with
  | |- context [match ?m ?s with _ => _ end] => destruct (m s) as [[?|?] ?]
  end;
  [|done].

Section TimestampFacts.
Context (w : World).

Lemma _convert_to_pst_falsy v st :
  truthy v = false → _convert_to_pst w v st = (Ok (PStr ""), st).
Proof. intros H. unfold _convert_to_pst. by rewrite H. Qed.

Lemma _convert_to_pst_unparseable s st :
  s ≠ "" → fromisoformat w (replace_Z s) = None →
  _convert_to_pst w (PStr s) st = (Ok (PStr s), st).
Proof.
  intros Hs Hparse. unfold _convert_to_pst. simpl.
  apply String.eqb_neq in Hs. rewrite Hs. simpl.
  unfold try_except. rewrite !bind_run. simpl.
  unfold py_fromisoformat. by rewrite Hparse.
Qed.

(** [_convert_to_pst] computes a value and does nothing else. *)
Lemma _convert_to_pst_pure v :
  ∃ v', ∀ st, _convert_to_pst w v st = (Ok v', st).
Proof.
  unfold _convert_to_pst. destruct (truthy v); simpl; [|by eexists].
  unfold try_except, py_replace_Z, py_fromisoformat.
  destruct v; try (by eexists).
  destruct (fromisoformat w (replace_Z s)) as [dt|] eqn:Hparse;
    [destruct (astimezone_la_isoformat w dt) as [out|] eqn:Hconv|].
  all: eexists; intros st; unfold bind, ret, raise; simpl; rewrite ?Hparse;
    simpl; rewrite ?Hconv; reflexivity.
Qed.

Lemma finish_never_skips p job v st :
  skipped (_process_print_job w p (("datetime_finished", v) :: job) st)
  ↔ skipped (_process_print_job w p job st).
Proof.
  unfold skipped, _process_print_job, dict_get, dict_get_default. simpl.
  destruct (in_terminal (default PNone (dict_lookup "result" job))); simpl; [|done].
  destruct (_convert_to_pst_pure v) as (v1 & Hv1).
  destruct (_convert_to_pst_pure
              (default (PStr "") (dict_lookup "datetime_finished" job)))
    as (v2 & Hv2).
  unfold try_except. do 3 step_both.
  rewrite !bind_run, Hv1, Hv2. do 4 step_both. done.
Qed.

Lemma empty_start_never_skips p job v s dt st :
  truthy v = false → s ≠ "" → fromisoformat w (replace_Z s) = Some dt →
  skipped (_process_print_job w p (("datetime_started", v) :: job) st)
  ↔ skipped (_process_print_job w p (("datetime_started", PStr s) :: job) st).
Proof.
  intros Hv Hs Hparse.
  unfold skipped, _process_print_job, dict_get, dict_get_default. simpl.
  destruct (in_terminal (default PNone (dict_lookup "result" job))); simpl; [|done].
  destruct (_convert_to_pst_pure v) as (v1 & Hv1).
  destruct (_convert_to_pst_pure (PStr s)) as (v2 & Hv2).
  apply String.eqb_neq in Hs. rewrite Hv, Hs. simpl.
  unfold try_except, py_fromisoformat. rewrite !bind_run. simpl.
  rewrite Hparse. simpl. step_both.
  rewrite !bind_run, Hv1, Hv2. do 5 step_both. done.
Qed.

Lemma unparseable_start_skips p job s st :
  in_terminal (dict_get job "result") = true →
  s ≠ "" → fromisoformat w (replace_Z s) = None →
  _process_print_job w p (("datetime_started", PStr s) :: job) st = (Ok None, st).
Proof.
  intros Hterm Hs Hparse.
  unfold _process_print_job, dict_get, dict_get_default in *. simpl.
  rewrite Hterm. apply String.eqb_neq in Hs. rewrite Hs. simpl.
  unfold try_except, py_fromisoformat. rewrite !bind_run. simpl.
  by rewrite Hparse.
Qed.

End TimestampFacts.

(** C8, as stated, fails on printer [10.0.0.4]: the job whose start time is
    ["yesterday"] is skipped, and the job whose finish time is ["tomorrow"]
    keeps that text, not the empty string, in its record. *)
Lemma C8_counterexample_unparseable_timestamps :
  fromisoformat Lab.world (replace_Z "yesterday") = None
  ∧ (_process_print_job Lab.world (Lab.printer "10.0.0.4")
       (Lab.job_fields [("uuid", PStr "t1"); ("datetime_started", PStr "yesterday")])
       (boot None)).1 = Ok None
  ∧ fromisoformat Lab.world (replace_Z "tomorrow") = None
  ∧ ∃ r,
      (_process_print_job Lab.world (Lab.printer "10.0.0.4")
         (Lab.job_fields [("uuid", PStr "t2"); ("datetime_finished", PStr "tomorrow")])
         (boot None)).1 = Ok (Some r)
      ∧ Job.datetime_finished r = PStr "tomorrow"
      ∧ Job.datetime_finished r ≠ PStr "".
Proof.
  split; [reflexivity|]. split; [vm_compute; reflexivity|]. split; [reflexivity|].
  eexists. split; [vm_compute; reflexivity|]. split; [reflexivity|discriminate].
Qed.

(** C8, amended.  In a record the normalizer produces, an empty start or
    finish timestamp (missing, [''], or any other false value) appears as
    the empty string, and a non-empty finish timestamp that does not parse
    appears unchanged.  Whether a job is skipped never depends on its finish
    timestamp, and an empty start timestamp skips a job no more than a
    well-formed one does.  A non-empty start timestamp that does not parse
    makes the normalizer skip the job. *)
Theorem C8_timestamps_empty_kept_bad_start_skipped
  (w : World) (p : PrinterAPI) (job : list (string * pyval)) (st : state)
  (empty_start empty_finish finish : pyval)
  (good_start bad_start bad_finish : string) (dt : datetime)
  (r1 r2 r3 : Job.t) (st1 st2 st3 : state) :
  (truthy empty_start = false →
   _process_print_job w p (("datetime_started", empty_start) :: job) st
   = (Ok (Some r1), st1) →
   Job.datetime_started r1 = PStr "")
  ∧ (truthy empty_finish = false →
     _process_print_job w p (("datetime_finished", empty_finish) :: job) st
     = (Ok (Some r2), st2) →
     Job.datetime_finished r2 = PStr "")
  ∧ (bad_finish ≠ "" → fromisoformat w (replace_Z bad_finish) = None →
     _process_print_job w p (("datetime_finished", PStr bad_finish) :: job) st
     = (Ok (Some r3), st3) →
     Job.datetime_finished r3 = PStr bad_finish)
  ∧ (skipped (_process_print_job w p (("datetime_finished", finish) :: job) st)
     ↔ skipped (_process_print_job w p job st))
  ∧ (truthy empty_start = false → good_start ≠ "" →
     fromisoformat w (replace_Z good_start) = Some dt →
     (skipped (_process_print_job w p (("datetime_started", empty_start) :: job) st)
      ↔ skipped (_process_print_job w p (("datetime_started", PStr good_start) :: job) st)))
  ∧ (in_terminal (dict_get job "result") = true →
     bad_start ≠ "" → fromisoformat w (replace_Z bad_start) = None →
     _process_print_job w p (("datetime_started", PStr bad_start) :: job) st
     = (Ok None, st)).
Proof.
  split; [|split; [|split; [|split; [|split]]]].
  - intros Hempty Hrun.
    apply _process_print_job_inv in Hrun as (_ & _ & _ & (s1 & s2 & Hstart) & _).
    unfold dict_get_default in Hstart. simpl in Hstart.
    rewrite _convert_to_pst_falsy in Hstart by done. congruence.
  - intros Hempty Hrun.
    apply _process_print_job_inv in Hrun as (_ & _ & _ & _ & (s1 & s2 & Hfinish)).
    unfold dict_get_default in Hfinish. simpl in Hfinish.
    rewrite _convert_to_pst_falsy in Hfinish by done. congruence.
  - intros Hne Hparse Hrun.
    apply _process_print_job_inv in Hrun as (_ & _ & _ & _ & (s1 & s2 & Hfinish)).
    unfold dict_get_default in Hfinish. simpl in Hfinish.
    rewrite _convert_to_pst_unparseable in Hfinish by done. congruence.
  - apply finish_never_skips.
  - apply empty_start_never_skips.
  - apply unparseable_start_skips.
Qed.

(** ** C2: running twice *)

Section RereadFacts.






End RereadFacts.

Section TwoRuns.
Context (w : World).

Lemma appended_well_formed log jobs :
  well_formed_log log → well_formed_log (Some (appended w log jobs)).
Proof. intros [->|(rows & ->)]; right; simpl; eauto. Qed.



End TwoRuns.


(** The condition on the log matters too: when the file exists without the
    header (here: empty), the rows are appended without one, the next run
    takes the first data row for the header, finds no [uuid] column, and
    starts with nothing known. *)
Example log_without_header_is_not_recognised :
  ∃ st1 self2 batch2 st2,
    main Lab.world Lab.no_faults 2 ["10.0.0.5"] (boot (Some [])) = Some (Ok tt, st1)
    ∧ __init__ Lab.no_faults ["10.0.0.5"] (boot (csv_file st1))
      = (Ok self2, boot (csv_file st1))
    ∧ existing_uuids self2 = ∅
    ∧ collect_batch Lab.world 2 self2 (boot (csv_file st1)) = Some (Ok batch2, st2)
    ∧ length batch2 = 3%nat.
Proof.
  eexists _, _, _, _. split; [vm_compute; reflexivity|].
  split; [vm_compute; reflexivity|]. split; [reflexivity|].
  split; [vm_compute; reflexivity|reflexivity].
Qed.


(** ** C10: a failed page *)


(** * The theorems at work in the laboratory *)




Lemma C4_witness :
  _process_print_job Lab.world (Lab.printer "10.0.0.5")
    [("uuid", PStr "c"); ("result", PStr "Printing")] (boot None)
  = (Ok None, boot None)
  ∧ ∃ batch st',
      collect_batch Lab.world 2 (Lab.logger "10.0.0.5") (boot None)
      = Some (Ok batch, st') ∧
      Forall (λ r, Job.result r = PStr "Finished" ∨ Job.result r = PStr "Aborted") batch.
Proof.
  edestruct (C4_non_terminal_jobs_are_skipped Lab.world (Lab.printer "10.0.0.5")
               [("uuid", PStr "c"); ("result", PStr "Printing")] (boot None)
               2 (Lab.logger "10.0.0.5") (boot None)) as [Hskip Hbatch].
  split; [apply Hskip; discriminate|].
  eexists _, _. split; [|apply Hbatch]; vm_compute; reflexivity.
Defined.

(** Printer [10.0.0.1]: page 1 is short, so two requests are made. *)
Lemma C5_witness :
  ∃ k,
    (k ≤ 1)%nat ∧
    short_page (page Lab.world (Lab.printer "10.0.0.1") k) = true ∧
    (∀ i, (i < k)%nat → short_page (page Lab.world (Lab.printer "10.0.0.1") i) = false) ∧
    ∀ fuel, (k < fuel)%nat →
      ∃ r st' j,
        fetch_pages Lab.world fuel (Lab.logger "10.0.0.1") (Lab.printer "10.0.0.1")
          0 [] (boot None) = Some (r, st') ∧
        (j ≤ k)%nat ∧
        history_offsets (trace st')
        = history_offsets (trace (boot None))
            ++ ((λ i, CONFIG.BATCH_SIZE * Z.of_nat i) <$> seq 0 (S j)) ∧
        (is_Ok r → j = k).
Proof.
  apply (C5_page_loop_terminates Lab.world (Lab.logger "10.0.0.1")
           (Lab.printer "10.0.0.1") [] (boot None) 1).
  vm_compute. reflexivity.
Defined.

Lemma C8_witness :
  let p := Lab.printer "10.0.0.5" in
  let job := Lab.job_fields [("uuid", PStr "a")] in
  (∃ r1 st1,
     _process_print_job Lab.world p (("datetime_started", PStr "") :: job) (boot None)
     = (Ok (Some r1), st1) ∧ Job.datetime_started r1 = PStr "")
  ∧ (∃ r2 st2,
       _process_print_job Lab.world p (("datetime_finished", PNone) :: job) (boot None)
       = (Ok (Some r2), st2) ∧ Job.datetime_finished r2 = PStr "")
  ∧ (∃ r3 st3,
       _process_print_job Lab.world p (("datetime_finished", PStr "tomorrow") :: job)
         (boot None)
       = (Ok (Some r3), st3) ∧ Job.datetime_finished r3 = PStr "tomorrow")
  ∧ (skipped (_process_print_job Lab.world p
                (("datetime_finished", PStr "tomorrow") :: job) (boot None))
     ↔ skipped (_process_print_job Lab.world p job (boot None)))
  ∧ (skipped (_process_print_job Lab.world p
                (("datetime_started", PStr "") :: job) (boot None))
     ↔ skipped (_process_print_job Lab.world p
                  (("datetime_started", PStr "2024-01-02T03:04:05Z") :: job) (boot None)))
  ∧ _process_print_job Lab.world p (("datetime_started", PStr "yesterday") :: job)
      (boot None)
    = (Ok None, boot None).
Proof.
  intros p job.
  edestruct (C8_timestamps_empty_kept_bad_start_skipped Lab.world p job (boot None)
               (PStr "") PNone (PStr "tomorrow")
               "2024-01-02T03:04:05Z" "yesterday" "tomorrow" Lab.started)
    as (H1 & H2 & H3 & H4 & H5 & H6).
  split; [|split; [|split; [|split; [|split]]]].
  - eexists _, _. split; [|apply H1; [reflexivity|]]; vm_compute; reflexivity.
  - eexists _, _. split; [|apply H2; [reflexivity|]]; vm_compute; reflexivity.
  - eexists _, _.
    split; [|apply H3; [discriminate|reflexivity|]]; vm_compute; reflexivity.
  - exact H4.
  - apply H5; [reflexivity|discriminate|reflexivity].
  - apply H6; [reflexivity|discriminate|reflexivity].
Defined.

Lemma C9_witness :
  csv_file (_save_jobs Lab.world Lab.no_faults [Lab.record_0] (boot None)).2
  = Some (fieldnames :: (csv_row Lab.world <$> [Lab.record_0]))
  ∧ (∀ rows, csv_file (boot None) = Some rows →
       ∃ more,
         csv_file (_save_jobs Lab.world Lab.no_faults [Lab.record_0] (boot None)).2
         = Some (rows ++ more))
  ∧ ∃ st1,
      collect_batch Lab.world 1 (Lab.logger "10.0.0.9") (boot Lab.old_log)
      = Some (Ok [], st1)
      ∧ collect_logs Lab.world Lab.no_faults 1 (Lab.logger "10.0.0.9") (boot Lab.old_log)
        = Some (Ok tt, st1)
      ∧ csv_file st1 = Lab.old_log.
Proof.
  edestruct (C9_header_once_then_append_only Lab.world Lab.no_faults [Lab.record_0]
               (boot None) 1 (Lab.logger "10.0.0.9") (boot Lab.old_log))
    as (Hsave & Hkeep & Hempty).
  split; [apply Hsave; reflexivity|]. split; [exact Hkeep|].
  eexists. split; [|apply Hempty]; vm_compute; reflexivity.
Defined.


(** * Further properties of the program *)

(** ** The [name] property *)

Section NameFacts.
Context (w : World).

Lemma name_uncached p st :
  default PNone (names st !! pid p) = PNone →
  name w p st
  = (Ok (resolved_name w p),
     set_name (pid p) (resolved_name w p) (emit_event (EvGet (ip p) EpSystem) st)).
Proof.
  intros Hc. unfold name. rewrite Hc, bind_run, make_request_run.
  unfold resolved_name.
  by destruct (http_get w (ip p) EpSystem) as [[| | | | |d]|].
Qed.

Lemma name_when_cached p st v :
  names st !! pid p = Some v → v ≠ PNone → name w p st = (Ok v, st).
Proof.
  intros Hc Hv. unfold name. rewrite Hc. simpl. by destruct v.
Qed.

Lemma system_requests_app a b :
  system_requests (a ++ b) = system_requests a ++ system_requests b.
Proof. apply omap_app. Qed.

Lemma system_requests_none d :
  Forall not_system_request d → system_requests d = [].
Proof.
  induction 1 as [|e d He _ IH]; [done|].
  destruct e as [a ep| | |]; try exact IH. destruct ep; try done; exact IH.
Qed.

End NameFacts.

(** X1. A printer whose [system] request fails, is answered by something
    other than an object, or by an object without [name], is called
    [Printer-<address>]: the first use of [name] makes the one request,
    returns that name and stores it. *)
Theorem X1_name_falls_back_to_address
  (w : World) (p : PrinterAPI) (st : state) :
  default PNone (names st !! pid p) = PNone →
  match http_get w (ip p) EpSystem with
  | Some (PDict d) => dict_lookup "name" d = None
  | _ => True
  end →
  name w p st
  = (Ok (PStr ("Printer-" +:+ ip p)),
     set_name (pid p) (PStr ("Printer-" +:+ ip p))
       (emit_event (EvGet (ip p) EpSystem) st)).
Proof.
  intros Hc Hresp. rewrite name_uncached by done.
  assert (Hname : resolved_name w p = PStr ("Printer-" +:+ ip p)).
  { unfold resolved_name, dict_get_default, default_name.
    destruct (http_get w (ip p) EpSystem) as [[| | | | |d]|]; try done.
    by rewrite Hresp. }
  by rewrite Hname.
Qed.

(** X2. The name is resolved once: when the first use of [name] obtains
    anything but [None], it makes exactly one [system] request, and the next
    use returns the same value without a request or any other effect. *)
Theorem X2_name_second_use_is_free
  (w : World) (p : PrinterAPI) (st : state) :
  default PNone (names st !! pid p) = PNone →
  resolved_name w p ≠ PNone →
  (name w p st).1 = Ok (resolved_name w p)
  ∧ system_requests (trace (name w p st).2) = system_requests (trace st) ++ [ip p]
  ∧ name w p (name w p st).2 = (Ok (resolved_name w p), (name w p st).2).
Proof.
  intros Hc Hv. rewrite name_uncached by done. simpl.
  split; [done|]. split; [by rewrite system_requests_app|].
  apply name_when_cached; [|done]. simpl. apply lookup_insert_eq.
Qed.

(** X3. A printer that reports [null] as its name is never considered
    resolved: every use of [name] asks again. *)
Theorem X3_null_name_is_asked_again
  (w : World) (p : PrinterAPI) (st : state) :
  default PNone (names st !! pid p) = PNone →
  resolved_name w p = PNone →
  (name w p st).1 = Ok PNone
  ∧ system_requests (trace (name w p (name w p st).2).2)
    = system_requests (trace st) ++ [ip p; ip p].
Proof.
  intros Hc Hv. rewrite name_uncached by done. rewrite Hv. simpl.
  split; [done|]. rewrite name_uncached.
  - simpl. rewrite !system_requests_app. simpl. by rewrite <- app_assoc.
  - simpl. by rewrite lookup_insert_eq.
Qed.

Lemma X1_witness :
  name Annex.world (Annex.printer 0 "10.0.1.2") (boot None)
  = (Ok (PStr "Printer-10.0.1.2"),
     set_name 0 (PStr "Printer-10.0.1.2")
       (emit_event (EvGet "10.0.1.2" EpSystem) (boot None))).
Proof.
  apply (X1_name_falls_back_to_address Annex.world (Annex.printer 0 "10.0.1.2")
           (boot None)); reflexivity.
Defined.

Lemma X2_witness :
  (name Lab.world (Lab.printer "10.0.0.5") (boot None)).1 = Ok (PStr "Ultimaker S5")
  ∧ system_requests (trace (name Lab.world (Lab.printer "10.0.0.5") (boot None)).2)
    = ["10.0.0.5"]
  ∧ name Lab.world (Lab.printer "10.0.0.5")
      (name Lab.world (Lab.printer "10.0.0.5") (boot None)).2
    = (Ok (PStr "Ultimaker S5"), (name Lab.world (Lab.printer "10.0.0.5") (boot None)).2).
Proof.
  apply (X2_name_second_use_is_free Lab.world (Lab.printer "10.0.0.5") (boot None));
    [reflexivity|discriminate].
Defined.

Lemma X3_witness :
  (name Annex.world (Annex.printer 0 "10.0.1.1") (boot None)).1 = Ok PNone
  ∧ system_requests
      (trace (name Annex.world (Annex.printer 0 "10.0.1.1")
                (name Annex.world (Annex.printer 0 "10.0.1.1") (boot None)).2).2)
    = ["10.0.1.1"; "10.0.1.1"].
Proof.
  apply (X3_null_name_is_asked_again Annex.world (Annex.printer 0 "10.0.1.1")
           (boot None)); reflexivity.
Defined.

(** ** One [system] request per printer *)

Lemma cachedM_ret {A} i P (a : A) : cachedM i P (ret a).
Proof.
  intros st _. exists (Ok a), []. split; [constructor|].
  unfold ret. rewrite app_nil_r. by destruct st.
Qed.

Lemma cachedM_raise {A} i P e : cachedM i P (@raise A e).
Proof.
  intros st _. exists (Raise e), []. split; [constructor|].
  unfold raise. rewrite app_nil_r. by destruct st.
Qed.

Lemma cachedM_emit i (P : event → Prop) e : P e → cachedM i P (emit e).
Proof.
  intros He st _. exists (Ok tt), [e]. split; [by repeat constructor|]. reflexivity.
Qed.

Lemma name_cached_frame i st d :
  name_cached i st →
  name_cached i {| trace := trace st ++ d; names := names st; csv_file := csv_file st |}.
Proof. done. Qed.

Lemma cachedM_bind {A B} i P (m : M A) (k : A → M B) :
  cachedM i P m → (∀ a, cachedM i P (k a)) → cachedM i P (bind m k).
Proof.
  intros Hm Hk st Hc. destruct (Hm st Hc) as (o & d & HP & E).
  rewrite bind_run, E. destruct o as [a|e].
  - destruct (Hk a _ (name_cached_frame i st d Hc)) as (o' & d' & HP' & E').
    exists o', (d ++ d'). split; [by apply Forall_app|].
    rewrite E'. simpl. by rewrite app_assoc.
  - exists (Raise e), d. done.
Qed.

Lemma cachedM_try {A} i P (m : M A) catches (h : exn → M A) :
  cachedM i P m → (∀ e, cachedM i P (h e)) → cachedM i P (try_except m catches h).
Proof.
  intros Hm Hh st Hc. destruct (Hm st Hc) as (o & d & HP & E).
  unfold try_except. rewrite E. destruct o as [a|e]; [by exists (Ok a), d|].
  destruct (catches e); [|by exists (Raise e), d].
  destruct (Hh e _ (name_cached_frame i st d Hc)) as (o' & d' & HP' & E').
  exists o', (d ++ d'). split; [by apply Forall_app|].
  rewrite E'. simpl. by rewrite app_assoc.
Qed.

Ltac cached_step :=
  first [ apply cachedM_ret | apply cachedM_raise | apply cachedM_bind
        | apply cachedM_try | progress intros | case_match ].
Ltac cached_auto := repeat cached_step.

Section CachedFacts.
Context (w : World).

Lemma make_request_cached i (P : event → Prop) p ep :
  P (EvGet (ip p) ep) → cachedM i P (make_request w p ep).
Proof.
  intros HP. unfold make_request. apply cachedM_try; [|cached_auto].
  apply cachedM_bind; [by apply cachedM_emit|]. cached_auto.
Qed.

Lemma name_cached_quiet p P : cachedM (pid p) P (name w p).
Proof.
  intros st (v & Hv & Hne). exists (Ok v), []. split; [constructor|].
  rewrite (name_when_cached w p st v Hv Hne), app_nil_r. by destruct st.
Qed.

Lemma get_material_name_cached i p guid :
  cachedM i not_system_request (get_material_name w p guid).
Proof.
  unfold get_material_name. case_match; [cached_auto|].
  apply cachedM_try; [|cached_auto].
  apply cachedM_bind; [by apply make_request_cached|]. cached_auto.
Qed.

Lemma _process_print_job_cached p job :
  cachedM (pid p) not_system_request (_process_print_job w p job).
Proof.
  unfold _process_print_job. case_match; [cached_auto|].
  apply cachedM_try; [|cached_auto].
  apply cachedM_bind.
  { unfold py_replace_Z, py_fromisoformat. cached_auto. }
  intros start_date. apply cachedM_bind; [apply name_cached_quiet|]. intros pn.
  do 2 (apply cachedM_bind;
        [unfold _convert_to_pst, py_replace_Z, py_fromisoformat; cached_auto|];
        intros ?).
  do 2 (apply cachedM_bind; [unfold py_max0; cached_auto|]; intros ?).
  do 2 (apply cachedM_bind; [apply get_material_name_cached|]; intros ?).
  apply cachedM_ret.
Qed.

Lemma for_jobs_cached self p history acc :
  cachedM (pid p) not_system_request (for_jobs w self p history acc).
Proof.
  revert acc. induction history as [|job rest IH]; intros acc; simpl.
  - apply cachedM_ret.
  - apply cachedM_bind; [|done].
    destruct job; try apply cachedM_ret.
    apply cachedM_bind; [apply _process_print_job_cached|].
    intros [pj|]; [|apply cachedM_ret].
    apply cachedM_bind; [unfold py_not_in; cached_auto|].
    intros []; apply cachedM_ret.
Qed.

Lemma fetch_pages_cached fuel self p offset acc :
  cachedL (pid p) not_system_request (fetch_pages w fuel self p offset acc).
Proof.
  revert offset acc. induction fuel as [|fuel IH]; intros offset acc st r st' Hc;
    [done|].
  rewrite fetch_pages_unfold.
  set (st1 := emit_event (EvGet (ip p) (EpHistory offset CONFIG.BATCH_SIZE)) st).
  assert (Hc1 : name_cached (pid p) st1) by done.
  assert (Hstop : ∀ a, Some (Ok a, st1) = Some (r, st') →
            ∃ d, Forall not_system_request d ∧
                 st' = {| trace := trace st ++ d; names := names st;
                          csv_file := csv_file st |}).
  { intros a [= <- <-]. exists [EvGet (ip p) (EpHistory offset CONFIG.BATCH_SIZE)].
    split; [by repeat constructor|done]. }
  destruct (http_get w (ip p) (EpHistory offset CONFIG.BATCH_SIZE))
    as [[| | | |l|]|]; try apply Hstop.
  destruct (for_jobs_cached self p l acc st1 Hc1) as (o & d & Hd & E).
  rewrite E. clear Hstop.
  assert (Hall : Forall not_system_request
                   (EvGet (ip p) (EpHistory offset CONFIG.BATCH_SIZE) :: d))
    by by constructor.
  destruct o as [acc'|e].
  - destruct (Z.of_nat (length l) <? CONFIG.BATCH_SIZE).
    + intros [= <- <-]. eexists. split; [exact Hall|].
      simpl. by rewrite <- app_assoc.
    + intros Hrun. eapply IH in Hrun as (d' & Hd' & ->); [|done].
      exists ((EvGet (ip p) (EpHistory offset CONFIG.BATCH_SIZE) :: d) ++ d').
      split; [by apply Forall_app|]. simpl. by rewrite <- !app_assoc.
  - intros [= <- <-]. eexists. split; [exact Hall|].
    simpl. by rewrite <- app_assoc.
Qed.

End CachedFacts.

(** X4. While one printer is swept -- its name looked up, its pages fetched,
    every job on them normalized -- exactly one [system] request is made
    when the printer's name was not yet resolved and resolves to something
    other than [None], and none at all when it was resolved before. *)
Theorem X4_one_system_request_per_printer
  (w : World) (fuel : nat) (self : UltimakerLogger) (p : PrinterAPI)
  (acc : list Job.t) (st : state) (r : outcome (list Job.t)) (st' : state)
  (acc2 : list Job.t) (st2 : state) (r2 : outcome (list Job.t)) (st2' : state) :
  (for_printers w fuel self [p] acc st = Some (r, st') →
   default PNone (names st !! pid p) = PNone → resolved_name w p ≠ PNone →
   system_requests (trace st') = system_requests (trace st) ++ [ip p]
   ∧ names st' !! pid p = Some (resolved_name w p))
  ∧ (for_printers w fuel self [p] acc2 st2 = Some (r2, st2') →
     name_cached (pid p) st2 →
     system_requests (trace st2') = system_requests (trace st2)
     ∧ names st2' = names st2).
Proof.
  simpl. split.
  - unfold bindL at 1. unfold lift. intros Hrun Hc Hv.
    rewrite name_uncached in Hrun by done.
    set (st1 := set_name (pid p) (resolved_name w p)
                  (emit_event (EvGet (ip p) EpSystem) st)) in *.
    assert (Hc1 : name_cached (pid p) st1).
    { exists (resolved_name w p). split; [apply lookup_insert_eq|done]. }
    unfold bindL in Hrun.
    destruct (fetch_pages w fuel self p 0 acc st1) as [[o st3]|] eqn:Hp; [|done].
    apply (fetch_pages_cached w fuel self p 0 acc st1 o st3 Hc1) in Hp
      as (d & Hd & ->).
    assert (st' = {| trace := trace st1 ++ d; names := names st1;
                     csv_file := csv_file st1 |}) as ->
      by (destruct o; by injection Hrun as <- <-).
    simpl. rewrite !system_requests_app, (system_requests_none d Hd). simpl.
    rewrite app_nil_r. split; [done|apply lookup_insert_eq].
  - unfold bindL at 1. unfold lift. intros Hrun Hc.
    destruct (name_cached_quiet w p not_system_request st2 Hc)
      as (o & d & Hd & E).
    rewrite E in Hrun. destruct o as [pn|e].
    + unfold bindL in Hrun.
      destruct (fetch_pages w fuel self p 0 acc2 _) as [[o st3]|] eqn:Hp; [|done].
      apply (fetch_pages_cached w fuel self p 0 acc2 _ o st3) in Hp
        as (d' & Hd' & ->); [|done].
      assert (st2' = {| trace := (trace st2 ++ d) ++ d'; names := names st2;
                        csv_file := csv_file st2 |}) as ->
        by (destruct o; by injection Hrun as <- <-).
      simpl. rewrite !system_requests_app, (system_requests_none d Hd),
        (system_requests_none d' Hd'). by rewrite !app_nil_r.
    + injection Hrun as <- <-. simpl.
      by rewrite system_requests_app, (system_requests_none d Hd), app_nil_r.
Qed.

(** Printer [10.0.0.5], swept from a fresh process and then once more. *)
Lemma X4_witness :
  ∃ r st' r2 st2',
    for_printers Lab.world 2 (Lab.logger "10.0.0.5") [Lab.printer "10.0.0.5"] []
      (boot None) = Some (r, st')
    ∧ system_requests (trace st') = ["10.0.0.5"]
    ∧ names st' !! 0%nat = Some (PStr "Ultimaker S5")
    ∧ for_printers Lab.world 2 (Lab.logger "10.0.0.5") [Lab.printer "10.0.0.5"] []
        st' = Some (r2, st2')
    ∧ system_requests (trace st2') = system_requests (trace st')
    ∧ names st2' = names st'.
Proof.
  eexists _, _, _, _.
  epose proof (X4_one_system_request_per_printer Lab.world 2 (Lab.logger "10.0.0.5")
                 (Lab.printer "10.0.0.5") [] (boot None) _ _ [] _ _ _)
    as [Hfirst Hsecond].
  split; [vm_compute; reflexivity|].
  destruct Hfirst as [Hone Hname]; [vm_compute; reflexivity|reflexivity|discriminate|].
  split; [exact Hone|]. split; [exact Hname|].
  split; [vm_compute; reflexivity|].
  apply Hsecond; [vm_compute; reflexivity|].
  eexists. split; [vm_compute; reflexivity|discriminate].
Defined.

(** ** Material names *)

(** X5. [get_material_name] makes at most one request: none for an empty
    GUID, and otherwise exactly the one for [materials/<guid>], whatever the
    answer and whether or not it then raises.  It changes nothing else. *)
Theorem X5_get_material_name_one_request
  (w : World) (p : PrinterAPI) (guid : pyval) (st : state) :
  (get_material_name w p guid st).2
  = if truthy guid then emit_event (EvGet (ip p) (EpMaterial guid)) st else st.
Proof.
  unfold get_material_name. destruct (truthy guid); simpl; [|done].
  unfold try_except. rewrite bind_run, make_request_run.
  destruct (http_get w (ip p) (EpMaterial guid)) as [[| | |xml| |]|]; simpl;
    try done.
  rewrite !bind_run.
  destruct (ET_fromstring w xml) as [root|]; simpl; [|done].
  destruct (element_find_descendant material_tag root) as [el|]; simpl; [|done].
  by destruct (element_text el).
Qed.

(** X6. When the printer answers the material request with a JSON string
    that parses as XML and has a [material] element below the root, the
    name is the text of the first such element, stripped. *)
Theorem X6_get_material_name_reads_material_element
  (w : World) (p : PrinterAPI) (guid : pyval) (st : state)
  (xml : string) (root el : element) (t : string) :
  truthy guid = true →
  http_get w (ip p) (EpMaterial guid) = Some (PStr xml) →
  ET_fromstring w xml = Some root →
  element_find_descendant material_tag root = Some el →
  element_text el = Some t →
  get_material_name w p guid st
  = (Ok (str_strip w t), emit_event (EvGet (ip p) (EpMaterial guid)) st).
Proof.
  intros H Hdoc Hroot Hel Htext. unfold get_material_name, try_except.
  rewrite H. simpl. rewrite bind_run, make_request_run, Hdoc. simpl.
  rewrite !bind_run. rewrite Hroot. simpl. by rewrite Hel, Htext.
Qed.

Lemma X6_witness :
  get_material_name Lab.world (Lab.printer "10.0.0.5") (PStr "506c9f0d") (boot None)
  = (Ok "PLA", emit_event (EvGet "10.0.0.5" (EpMaterial (PStr "506c9f0d"))) (boot None)).
Proof.
  apply (X6_get_material_name_reads_material_element Lab.world (Lab.printer "10.0.0.5")
           (PStr "506c9f0d") (boot None) Lab.pla_xml (Lab.material_doc (Some "PLA"))
           (Element (Lab.ns "material") (Some "PLA") []) "PLA"); reflexivity.
Defined.



(** ** Timestamps *)

Lemma _convert_to_pst_converted w s dt st :
  s ≠ "" → fromisoformat w (replace_Z s) = Some dt →
  _convert_to_pst w (PStr s) st
  = (Ok (PStr (default s (astimezone_la_isoformat w dt))), st).
Proof.
  intros Hs Hparse. unfold _convert_to_pst. simpl.
  apply String.eqb_neq in Hs. rewrite Hs. simpl.
  unfold try_except, py_fromisoformat, bind, ret, raise. simpl.
  rewrite Hparse. simpl. by destruct (astimezone_la_isoformat w dt).
Qed.

(** X8. [_convert_to_pst] never raises and has no effect, whatever it is
    given.  A string that parses and converts yields the conversion; when
    the conversion itself raises, and when the value is something other
    than a string, the value comes back as it is. *)
Theorem X8_convert_to_pst_total
  (w : World) (v : pyval) (st : state) (s s' : string) (dt dt' : datetime)
  (out : string) :
  (∃ v', _convert_to_pst w v st = (Ok v', st))
  ∧ (s ≠ "" → fromisoformat w (replace_Z s) = Some dt →
     astimezone_la_isoformat w dt = Some out →
     _convert_to_pst w (PStr s) st = (Ok (PStr out), st))
  ∧ (s' ≠ "" → fromisoformat w (replace_Z s') = Some dt' →
     astimezone_la_isoformat w dt' = None →
     _convert_to_pst w (PStr s') st = (Ok (PStr s'), st))
  ∧ (truthy v = true → (∀ x, v ≠ PStr x) → _convert_to_pst w v st = (Ok v, st)).
Proof.
  split; [|split; [|split]].
  - destruct (_convert_to_pst_pure w v) as (v' & Hv'). by exists v'.
  - intros Hs Hparse Hconv.
    rewrite (_convert_to_pst_converted w _ _ st Hs Hparse). by rewrite Hconv.
  - intros Hs Hparse Hconv.
    rewrite (_convert_to_pst_converted w _ _ st Hs Hparse). by rewrite Hconv.
  - intros Htrue Hnot. unfold _convert_to_pst. rewrite Htrue. simpl.
    unfold try_except. rewrite bind_run.
    destruct v; try done. by destruct (Hnot s0).
Qed.

Lemma X8_witness :
  (∃ v', _convert_to_pst Annex.world (PInt 7) (boot None) = (Ok v', boot None))
  ∧ _convert_to_pst Annex.world (PStr "2024-01-02T03:04:05Z") (boot None)
    = (Ok (PStr "2024-01-01T19:04:05-08:00"), boot None)
  ∧ _convert_to_pst Annex.world (PStr "0001-01-01T00:00:00Z") (boot None)
    = (Ok (PStr "0001-01-01T00:00:00Z"), boot None)
  ∧ _convert_to_pst Annex.world (PInt 7) (boot None) = (Ok (PInt 7), boot None).
Proof.
  destruct (X8_convert_to_pst_total Annex.world (PInt 7) (boot None)
              "2024-01-02T03:04:05Z" "0001-01-01T00:00:00Z" Lab.started Annex.dawn
              "2024-01-01T19:04:05-08:00") as (H1 & H2 & H3 & H4).
  split; [exact H1|]. split; [apply H2; [discriminate|reflexivity|reflexivity]|].
  split; [apply H3; [discriminate|reflexivity|reflexivity]|].
  apply H4; [reflexivity|discriminate].
Defined.

(** ** The normalizer *)

Section RecordFacts.
Context (w : World).

Lemma try_all_Ok {A} (m : M A) (a : A) st :
  ∃ o, (try_except m is_Exception (λ _, ret a) st).1 = Ok o.
Proof. unfold try_except. destruct (m st) as [[a'|e] st']; by eexists. Qed.

Lemma py_max0_inv v st a st' :
  py_max0 v st = (Ok a, st') →
  st' = st ∧
  match v with
  | PInt z => a = PInt (Z.max 0 z)
  | PBool b => a = if b then PBool true else PInt 0
  | _ => False
  end.
Proof.
  destruct v; simpl; try discriminate; intros [= <- <-]; split; try done.
  destruct (Z.ltb_spec 0 z); f_equal; lia.
Qed.

(** The date comes from a pure computation ahead of every request. *)
Lemma start_date_inv job st d st0 :
  (if truthy (dict_get job "datetime_started")
   then let* replaced :=
          py_replace_Z (dict_get_default job "datetime_started" (PStr "")) in
        let* dt := py_fromisoformat w replaced in
        ret (date_isoformat dt)
   else ret "") st = (Ok d, st0) →
  st0 = st ∧
  if truthy (dict_get job "datetime_started")
  then ∃ s dt, dict_get_default job "datetime_started" (PStr "") = PStr s ∧
               fromisoformat w (replace_Z s) = Some dt ∧ d = date_isoformat dt
  else d = "".
Proof.
  destruct (truthy (dict_get job "datetime_started")); [|by intros [= <- <-]].
  intros H. bind_inv H. bind_inv H. injection H as <- <-.
  unfold py_replace_Z in Hrun.
  destruct (dict_get_default job "datetime_started" (PStr "")); try discriminate.
  injection Hrun as <- <-. unfold py_fromisoformat in Hrun0.
  destruct (fromisoformat w (replace_Z s)) as [dt|] eqn:Hparse; [|discriminate].
  injection Hrun0 as <- <-. split; [done|]. by exists s, dt.
Qed.

(** Every field of a record, traced back to the job and the printer. *)
Lemma _process_print_job_fields p job st r st' :
  _process_print_job w p job st = (Ok (Some r), st') →
  (if truthy (dict_get job "datetime_started")
   then ∃ s dt, dict_get_default job "datetime_started" (PStr "") = PStr s ∧
                fromisoformat w (replace_Z s) = Some dt ∧
                Job.date r = date_isoformat dt
   else Job.date r = "")
  ∧ (∃ stn, name w p st = (Ok (Job.printer_name r), stn))
  ∧ Job.name r = dict_get_default job "name" (PStr "")
  ∧ Job.time_total r = dict_get_default job "time_total" (PInt 0)
  ∧ (∃ s, py_max0 (dict_get_default job "material_0_amount" (PInt 0)) s
          = (Ok (Job.material_0_amount r), s))
  ∧ (∃ s, py_max0 (dict_get_default job "material_1_amount" (PInt 0)) s
          = (Ok (Job.material_1_amount r), s))
  ∧ (∃ s s', get_material_name w p (dict_get_default job "material_0_guid" (PStr "")) s
             = (Ok (Job.material_0_name r), s'))
  ∧ (∃ s s', get_material_name w p (dict_get_default job "material_1_guid" (PStr "")) s
             = (Ok (Job.material_1_name r), s')).
Proof.
  unfold _process_print_job.
  destruct (in_terminal (dict_get job "result")); simpl; [|discriminate].
  intros H. apply try_except_Ok_inv in H as [H|(e & st1 & _ & _ & H)];
    [|discriminate].
  apply bind_Ok_inv in H as (d & sd & Hdate & H).
  apply start_date_inv in Hdate as (-> & Hdate).
  apply bind_Ok_inv in H as (pn & sn & Hname & H).
  apply bind_Ok_inv in H as (ts & s1 & Hstart & H).
  apply bind_Ok_inv in H as (tf & s2 & Hfinish & H).
  apply bind_Ok_inv in H as (a0 & s3 & Ha0 & H).
  apply bind_Ok_inv in H as (a1 & s4 & Ha1 & H).
  apply bind_Ok_inv in H as (n0 & s5 & Hn0 & H).
  apply bind_Ok_inv in H as (n1 & s6 & Hn1 & H).
  injection H as <- <-. simpl.
  pose proof (py_max0_inv _ _ _ _ Ha0) as (-> & _).
  pose proof (py_max0_inv _ _ _ _ Ha1) as (-> & _).
  split; [exact Hdate|]. split; [by eexists|].
  split; [done|]. split; [done|]. split; [by eexists|]. split; [by eexists|].
  split; by eexists _, _.
Qed.

End RecordFacts.

(** X9. [_process_print_job] never raises: whatever goes wrong while a job
    is normalized, the job is skipped.  In particular a job one of whose
    materials has a document with an empty [material] element is skipped,
    the [AttributeError] of [get_material_name] being caught here. *)
Theorem X9_process_print_job_never_raises
  (w : World) (p : PrinterAPI) (job : list (string * pyval)) (st : state)
  (guid : pyval) (xml : string) (root el : element) :
  (∃ o, (_process_print_job w p job st).1 = Ok o)
  ∧ (guid = dict_get_default job "material_0_guid" (PStr "")
     ∨ guid = dict_get_default job "material_1_guid" (PStr "") →
     truthy guid = true →
     http_get w (ip p) (EpMaterial guid) = Some (PStr xml) →
     ET_fromstring w xml = Some root →
     element_find_descendant material_tag root = Some el →
     element_text el = None →
     skipped (_process_print_job w p job st)).
Proof.
  split.
  - unfold _process_print_job. case_match; [by eexists|]. apply try_all_Ok.
  - intros Hguid Htrue Hdoc Hroot Hel Htext.
    unfold skipped, _process_print_job.
    destruct (in_terminal (dict_get job "result")); simpl; [|done].
    unfold try_except. do 6 step_both. rewrite !bind_run.
    destruct Hguid as [<-|<-].
    + by rewrite (get_material_name_no_text w p guid xml root el).
    + step_both. rewrite !bind_run.
      by rewrite (get_material_name_no_text w p guid xml root el).
Qed.

Lemma X9_witness :
  (∃ o, (_process_print_job Lab.world (Lab.printer "10.0.0.5")
           (("material_0_guid", PStr "0e01be8c") :: Lab.job_fields [("uuid", PStr "a")])
           (boot None)).1 = Ok o)
  ∧ skipped (_process_print_job Lab.world (Lab.printer "10.0.0.5")
               (("material_0_guid", PStr "0e01be8c") :: Lab.job_fields [("uuid", PStr "a")])
               (boot None)).
Proof.
  destruct (X9_process_print_job_never_raises Lab.world (Lab.printer "10.0.0.5")
              (("material_0_guid", PStr "0e01be8c") :: Lab.job_fields [("uuid", PStr "a")])
              (boot None) (PStr "0e01be8c") Lab.blank_xml (Lab.material_doc None)
              (Element (Lab.ns "material") None [])) as [Hok Hskip].
  split; [exact Hok|].
  apply Hskip; [by left|reflexivity..].
Defined.

(** X10. Material amounts are clamped at zero: in a record the normalizer
    produces, an integer amount [z] of the job appears as [max 0 z] and a
    missing amount as [0]; a job whose amount is [None], a string, a list or
    an object produces no record. *)
Theorem X10_material_amounts_clamped
  (w : World) (p : PrinterAPI) (job : list (string * pyval)) (st : state)
  (r : Job.t) (st' : state) :
  _process_print_job w p job st = (Ok (Some r), st') →
  match dict_lookup "material_0_amount" job with
  | None => Job.material_0_amount r = PInt 0
  | Some (PInt z) => Job.material_0_amount r = PInt (Z.max 0 z)
  | Some (PBool b) => Job.material_0_amount r = if b then PBool true else PInt 0
  | Some _ => False
  end
  ∧ match dict_lookup "material_1_amount" job with
    | None => Job.material_1_amount r = PInt 0
    | Some (PInt z) => Job.material_1_amount r = PInt (Z.max 0 z)
    | Some (PBool b) => Job.material_1_amount r = if b then PBool true else PInt 0
    | Some _ => False
    end.
Proof.
  intros H.
  apply _process_print_job_fields in H
    as (_ & _ & _ & _ & (s0 & H0) & (s1 & H1) & _).
  apply py_max0_inv in H0 as [_ H0]. apply py_max0_inv in H1 as [_ H1].
  unfold dict_get_default in *.
  split.
  - destruct (dict_lookup "material_0_amount" job) as [v|]; [|done].
    simpl in H0. by destruct v.
  - destruct (dict_lookup "material_1_amount" job) as [v|]; [|done].
    simpl in H1. by destruct v.
Qed.

(** The laboratory job reports [1200] and [-5]. *)
Lemma X10_witness :
  ∃ r st',
    _process_print_job Lab.world (Lab.printer "10.0.0.5")
      (Lab.job_fields [("uuid", PStr "a")]) (boot None) = (Ok (Some r), st')
    ∧ Job.material_0_amount r = PInt (Z.max 0 1200)
    ∧ Job.material_1_amount r = PInt (Z.max 0 (-5)).
Proof.
  eexists _, _. split; [vm_compute; reflexivity|].
  eapply (X10_material_amounts_clamped Lab.world (Lab.printer "10.0.0.5")
            (Lab.job_fields [("uuid", PStr "a")]) (boot None)).
  vm_compute. reflexivity.
Defined.

(** X11. The calendar date of a record is derived from the start timestamp
    as the printer gave it, before any zone conversion: with a non-empty
    start timestamp [s], [s] with its [Z]s replaced parses to some [dt], the
    date is [dt]'s date and the start field is [dt] converted (or [s] itself
    when the conversion fails); with an empty one both fields are empty. *)
Theorem X11_date_from_start_timestamp
  (w : World) (p : PrinterAPI) (job : list (string * pyval)) (st : state)
  (r : Job.t) (st' : state) :
  _process_print_job w p job st = (Ok (Some r), st') →
  if truthy (dict_get job "datetime_started")
  then ∃ s dt,
         dict_get job "datetime_started" = PStr s ∧
         fromisoformat w (replace_Z s) = Some dt ∧
         Job.date r = date_isoformat dt ∧
         Job.datetime_started r = PStr (default s (astimezone_la_isoformat w dt))
  else Job.date r = "" ∧ Job.datetime_started r = PStr "".
Proof.
  intros H.
  pose proof (_process_print_job_fields w p job st r st' H) as (Hdate & _).
  apply _process_print_job_inv in H as (_ & _ & _ & (s1 & s2 & Hstart) & _).
  unfold dict_get, dict_get_default in *.
  destruct (dict_lookup "datetime_started" job) as [v|]; simpl in *.
  - destruct (truthy v) eqn:Hv.
    + destruct Hdate as (s & dt & -> & Hparse & Hd). exists s, dt.
      split; [done|]. split; [done|]. split; [done|].
      assert (Hs : s ≠ "").
      { intros ->. discriminate Hv. }
      rewrite (_convert_to_pst_converted w s dt s1 Hs Hparse) in Hstart.
      congruence.
    + split; [done|]. rewrite _convert_to_pst_falsy in Hstart by done. congruence.
  - split; [done|]. rewrite _convert_to_pst_falsy in Hstart by done. congruence.
Qed.

Lemma X11_witness :
  ∃ r st',
    _process_print_job Lab.world (Lab.printer "10.0.0.5")
      (Lab.job_fields [("uuid", PStr "a")]) (boot None) = (Ok (Some r), st')
    ∧ ∃ s dt,
        dict_get (Lab.job_fields [("uuid", PStr "a")]) "datetime_started" = PStr s ∧
        fromisoformat Lab.world (replace_Z s) = Some dt ∧
        Job.date r = date_isoformat dt ∧
        Job.datetime_started r
        = PStr (default s (astimezone_la_isoformat Lab.world dt)).
Proof.
  eexists _, _. split; [vm_compute; reflexivity|].
  eapply (X11_date_from_start_timestamp Lab.world (Lab.printer "10.0.0.5")
            (Lab.job_fields [("uuid", PStr "a")]) (boot None)).
  vm_compute. reflexivity.
Defined.

(** X12. The remaining fields of a record are the job's own: [uuid] and
    [name] default to the empty string and [time_total] to [0] when the job
    lacks them, [result] is the job's, and [printer_name] is what the
    printer's [name] property returns at the start of the normalization. *)
Theorem X12_record_fields_pass_through
  (w : World) (p : PrinterAPI) (job : list (string * pyval)) (st : state)
  (r : Job.t) (st' : state) :
  _process_print_job w p job st = (Ok (Some r), st') →
  Job.uuid r = default (PStr "") (dict_lookup "uuid" job)
  ∧ Job.name r = default (PStr "") (dict_lookup "name" job)
  ∧ Job.time_total r = default (PInt 0) (dict_lookup "time_total" job)
  ∧ dict_lookup "result" job = Some (Job.result r)
  ∧ (name w p st).1 = Ok (Job.printer_name r).
Proof.
  intros H.
  pose proof (_process_print_job_fields w p job st r st' H)
    as (_ & (stn & Hname) & Hn & Ht & _).
  apply _process_print_job_inv in H as (Hterm & Hu & Hr & _).
  split; [done|]. split; [done|]. split; [done|]. split; [|by rewrite Hname].
  unfold dict_get, dict_get_default in *.
  destruct (dict_lookup "result" job); simpl in *; [by rewrite Hr|discriminate].
Qed.

Lemma X12_witness :
  ∃ r st',
    _process_print_job Annex.world (Annex.printer 0 "10.0.1.2")
      (Annex.plain []) (boot None) = (Ok (Some r), st')
    ∧ Job.uuid r = PStr ""
    ∧ Job.name r = PStr "clip"
    ∧ Job.time_total r = PInt 120
    ∧ Some (PStr "Finished") = Some (Job.result r)
    ∧ Ok (PStr "Printer-10.0.1.2") = Ok (Job.printer_name r).
Proof.
  eexists _, _. split; [vm_compute; reflexivity|].
  eapply (X12_record_fields_pass_through Annex.world (Annex.printer 0 "10.0.1.2")
            (Annex.plain []) (boot None)).
  vm_compute. reflexivity.
Defined.

(** ** Startup *)

Section StartupFacts.

Lemma last_index_None k l : last_index k l = None ↔ k ∉ l.
Proof.
  induction l as [|x l IH]; simpl.
  - split; [intros _ H; by apply elem_of_nil in H|done].
  - destruct (last_index k l) as [i|].
    + split; [done|]. intros Hn. exfalso.
      assert (Hl : k ∉ l) by (intros ?; apply Hn; by right).
      apply IH in Hl. discriminate.
    + destruct (String.eqb_spec x k) as [->|Hne].
      * split; [done|]. intros Hn. destruct Hn. by left.
      * split; [|done]. intros _ Hin.
        apply elem_of_cons in Hin as [->|Hin]; [done|].
        by apply (proj1 IH).
Qed.

(** Without a [uuid] column the comprehension yields nothing or fails. *)
Lemma uuid_comprehension_no_column header rows :
  "uuid" ∉ header →
  match uuid_comprehension header rows with
  | Ok s => s = ∅
  | Raise _ => True
  end.
Proof.
  intros Hno. apply last_index_None in Hno.
  induction rows as [|row rest IH]; simpl; [done|].
  destruct row as [|c row]; [done|].
  unfold DictReader_uuid. by rewrite Hno.
Qed.

(** With the [uuid] column at position [i], what is loaded are the
    non-empty cells at that position. *)
Lemma uuid_comprehension_column header i rows :
  last_index "uuid" header = Some i →
  ∃ s, uuid_comprehension header rows = Ok s ∧
       ∀ u, u ∈ s ↔ u ≠ "" ∧ ∃ row, row ∈ rows ∧ row !! i = Some u.
Proof.
  intros Hi. induction rows as [|row rest (s & Hs & Hmem)]; simpl.
  - exists ∅. split; [done|]. intros u. split; [set_solver|].
    intros (_ & row & Hrow & _). by apply elem_of_nil in Hrow.
  - assert (Hrest : ∀ u cell,
              (cell = None ∨ cell = Some "") → row !! i = cell →
              (u ∈ s ↔ u ≠ "" ∧ ∃ r, r ∈ row :: rest ∧ r !! i = Some u)).
    { intros u cell Hcell Hrow. rewrite Hmem. split.
      - intros (Hu & r & Hr & Hc). split; [done|]. exists r. split; [by right|done].
      - intros (Hu & r & Hr & Hc). split; [done|].
        apply elem_of_cons in Hr as [->|Hr]; [|eauto].
        rewrite Hrow in Hc. destruct Hcell as [->| ->]; congruence. }
    destruct row as [|c row].
    + exists s. split; [done|]. intros u. by apply (Hrest u None); [left|].
    + unfold DictReader_uuid. rewrite Hi, Hs.
      destruct ((c :: row) !! i) as [cell|] eqn:Hcell.
      * destruct (String.eqb_spec cell "") as [->|Hne].
        -- exists s. split; [done|]. intros u. by apply (Hrest u (Some "")); [right|].
        -- exists ({[ cell ]} ∪ s). split; [done|]. intros u.
           rewrite elem_of_union, elem_of_singleton, Hmem. split.
           ++ intros [->|(Hu & r & Hr & Hc)].
              ** split; [done|]. exists (c :: row). split; [by left|done].
              ** split; [done|]. exists r. split; [by right|done].
           ++ intros (Hu & r & Hr & Hc).
              apply elem_of_cons in Hr as [->|Hr]; [left; congruence|right; eauto].
      * exists s. split; [done|]. intros u. by apply (Hrest u None); [left|].
Qed.

Lemma imap_printers_ip (l : list string) :
  ip <$> imap (λ i a, {| pid := i; ip := a |}) l = l.
Proof.
  rewrite fmap_imap. rewrite (imap_ext _ (const id)) by done.
  by rewrite imap_const, list_fmap_id.
Qed.

Lemma imap_printers_pid (l : list string) :
  pid <$> imap (λ i a, {| pid := i; ip := a |}) l = seq 0 (length l).
Proof.
  rewrite fmap_imap. rewrite (imap_ext _ (λ i _, id i)) by done.
  by rewrite imap_seq_0, list_fmap_id.
Qed.

End StartupFacts.

(** X13. [__init__] always succeeds and changes nothing: it returns a logger
    with one printer object per address, in the order of the addresses and
    each with a cell of its own for the name, and the known ids never
    contain the empty string. *)
Theorem X13_init_builds_the_logger
  (f : Faults) (printer_ips : list string) (st : state) :
  ∃ self,
    __init__ f printer_ips st = (Ok self, st)
    ∧ ip <$> printers self = printer_ips
    ∧ pid <$> printers self = seq 0 (length printer_ips)
    ∧ "" ∉ existing_uuids self.
Proof.
  eexists. split; [apply __init___spec|]. simpl.
  split; [apply imap_printers_ip|]. split; [apply imap_printers_pid|].
  apply loaded_uuids_nonempty.
Qed.

(** X14. Nothing is known at startup when there is no log, when reading it
    raises, and when its first row has no [uuid] column -- in which case the
    [KeyError] is swallowed and every id in the file is ignored. *)
Theorem X14_unreadable_log_means_nothing_known
  (f1 f2 f3 : Faults) (st1 st2 st3 : state)
  (header : list string) (data : list (list string)) :
  (csv_file st1 = None → loaded_uuids f1 st1 = ∅)
  ∧ (read_fault f2 = true → loaded_uuids f2 st2 = ∅)
  ∧ (csv_file st3 = Some (header :: data) → "uuid" ∉ header →
     loaded_uuids f3 st3 = ∅).
Proof.
  unfold loaded_uuids, read_log. split; [|split].
  - by intros ->.
  - intros ->. by destruct (csv_file st2).
  - intros -> Hno. destruct (read_fault f3); [done|].
    pose proof (uuid_comprehension_no_column header data Hno) as H.
    by destruct (uuid_comprehension header data).
Qed.

Lemma X14_witness :
  loaded_uuids Lab.no_faults (boot None) = ∅
  ∧ loaded_uuids {| read_fault := true; disk := DiskOk; sheet := SheetOk |}
      (boot Lab.old_log) = ∅
  ∧ loaded_uuids Lab.no_faults
      (boot (Some [["id"; "printer"]; ["job-0"; "Ultimaker S5"]])) = ∅.
Proof.
  destruct (X14_unreadable_log_means_nothing_known Lab.no_faults
              {| read_fault := true; disk := DiskOk; sheet := SheetOk |} Lab.no_faults
              (boot None) (boot Lab.old_log)
              (boot (Some [["id"; "printer"]; ["job-0"; "Ultimaker S5"]]))
              ["id"; "printer"] [["job-0"; "Ultimaker S5"]]) as (H1 & H2 & H3).
  split; [apply H1; reflexivity|]. split; [apply H2; reflexivity|].
  apply H3; [reflexivity|].
  intros H. repeat (apply elem_of_cons in H as [H|H]; [discriminate|]).
  by apply elem_of_nil in H.
Defined.

(** X15. When the log can be read and its first row has a [uuid] column,
    the ids known at startup are exactly the non-empty cells of that column
    in the rows below; a row too short to have the cell contributes
    nothing.  A repeated column name counts at its last position. *)
Theorem X15_known_ids_are_the_uuid_column
  (f : Faults) (st : state) (header : list string) (data : list (list string))
  (i : nat) (u : string) :
  read_fault f = false →
  csv_file st = Some (header :: data) →
  last_index "uuid" header = Some i →
  u ∈ loaded_uuids f st ↔ u ≠ "" ∧ ∃ row, row ∈ data ∧ row !! i = Some u.
Proof.
  intros Hf Hlog Hi. unfold loaded_uuids, read_log. rewrite Hlog, Hf.
  destruct (uuid_comprehension_column header i data Hi) as (s & -> & Hmem).
  apply Hmem.
Qed.

Lemma X15_witness :
  "job-1" ∈ loaded_uuids Lab.no_faults (boot Lab.old_log)
  ↔ "job-1" ≠ "" ∧
    ∃ row, row ∈ [Lab.logged_row "job-0"; Lab.logged_row "job-1"] ∧
           row !! 0%nat = Some "job-1".
Proof.
  apply (X15_known_ids_are_the_uuid_column Lab.no_faults (boot Lab.old_log) fieldnames
           [Lab.logged_row "job-0"; Lab.logged_row "job-1"] 0 "job-1"); reflexivity.
Defined.

(** ** Writing the log and reading it back *)

Section RoundTrip.
Context (w : World).





End RoundTrip.



(** ** The mirror *)

Section MirrorFacts.
Context (f : Faults).

Lemma mapM_cons {A B} (g : A → M B) x l :
  mapM g (x :: l) = (let* y := g x in let* ys := mapM g l in ret (y :: ys)).
Proof. reflexivity. Qed.

Lemma mapM_row job st :
  mapM (λ field, py_getitem (Job.items job) field) fieldnames st
  = (Ok (sheet_row job), st).
Proof. reflexivity. Qed.

Lemma mapM_rows jobs st :
  mapM (λ job, mapM (λ field, py_getitem (Job.items job) field) fieldnames) jobs st
  = (Ok (sheet_row <$> jobs), st).
Proof.
  induction jobs as [|job jobs IH]; [done|].
  rewrite mapM_cons, bind_run, mapM_row, bind_run, IH. reflexivity.
Qed.

Lemma forM_cons {A} (x : A) l (body : A → M unit) :
  forM (x :: l) body = (let* _ := body x in forM l body).
Proof. reflexivity. Qed.

(** The loop over the batch starts: it stops at the first start for which
    [append_rows] raises, having done the turns before it. *)
Lemma forM_batches rows batch_size starts st :
  ∃ o done rest,
    starts = done ++ rest ∧
    forM starts (λ i,
      let* _ := append_rows f i (take batch_size (drop i rows)) in
      if (i + batch_size <? length rows)%nat then emit EvSleep else ret tt) st
    = (o, {| trace := trace st ++ (done ≫= batch_events batch_size rows);
             names := names st; csv_file := csv_file st |}) ∧
    (o = Ok tt ∧ rest = [] ∨
     o = Raise APIError ∧ ∃ i rest', rest = i :: rest' ∧ sheet f = AppendFails i).
Proof.
  revert st. induction starts as [|i starts IH]; intros st.
  - exists (Ok tt), [], []. split; [done|]. split; [|by left].
    simpl. unfold ret. rewrite app_nil_r. by destruct st.
  - rewrite forM_cons, !bind_run.
    assert (Hfail : sheet f = AppendFails i ∨
                    append_rows f i (take batch_size (drop i rows)) st
                    = (Ok tt, emit_event (EvSheetAppend (take batch_size (drop i rows))) st)).
    { unfold append_rows. destruct (sheet f) as [| |i'] eqn:Hs; try by right.
      destruct (Nat.eqb_spec i i') as [->|Hne]; [by left|by right]. }
    destruct Hfail as [Hs|Happ].
    + exists (Raise APIError), [], (i :: starts). split; [done|].
      split; [|right; eauto]. unfold append_rows. rewrite Hs, Nat.eqb_refl.
      simpl. unfold raise. rewrite app_nil_r. by destruct st.
    + rewrite Happ.
      set (st1 := emit_event (EvSheetAppend (take batch_size (drop i rows))) st).
      set (st2 := if (i + batch_size <? length rows)%nat
                  then emit_event EvSleep st1 else st1).
      assert (Hturn : (if (i + batch_size <? length rows)%nat
                       then emit EvSleep else ret tt) st1 = (Ok tt, st2)).
      { unfold st2. by destruct (i + batch_size <? length rows)%nat. }
      rewrite Hturn.
      destruct (IH st2) as (o & done & rest & Hsplit & E & Hend).
      exists o, (i :: done), rest. split; [by rewrite Hsplit|]. split; [|done].
      rewrite E. f_equal.
      assert (Htr : trace st2 = trace st ++ batch_events batch_size rows i).
      { unfold st2, batch_events.
        destruct (i + batch_size <? length rows)%nat; simpl;
          by rewrite <- ?app_assoc. }
      assert (Hn : names st2 = names st)
        by (unfold st2; by destruct (i + batch_size <? length rows)%nat).
      assert (Hc : csv_file st2 = csv_file st)
        by (unfold st2; by destruct (i + batch_size <? length rows)%nat).
      rewrite Htr, Hn, Hc, <- app_assoc. done.
Qed.

Lemma sheet_batches_app a b :
  sheet_batches (a ++ b) = sheet_batches a ++ sheet_batches b.
Proof. apply omap_app. Qed.

Lemma sheet_batches_events rows batch_size starts :
  sheet_batches (starts ≫= batch_events batch_size rows)
  = (λ i, take batch_size (drop i rows)) <$> starts.
Proof.
  induction starts as [|i starts IH]; [done|].
  change ((i :: starts) ≫= batch_events batch_size rows)
    with (batch_events batch_size rows i ++ (starts ≫= batch_events batch_size rows)).
  rewrite sheet_batches_app, IH. unfold batch_events.
  by destruct (i + batch_size <? length rows)%nat.
Qed.

Lemma fmap_seq_head {A} (h : nat → A) n :
  h <$> seq 0 (S n) = h 0%nat :: ((h ∘ S) <$> seq 0 n).
Proof.
  change (seq 0 (S n)) with (0%nat :: seq 1 n).
  by rewrite fmap_cons, <- fmap_S_seq, <- list_fmap_compose.
Qed.

(** Cutting a list into consecutive pieces of [b] and gluing them again. *)
Lemma chunks_concat {A} (b n : nat) (l : list A) :
  (length l ≤ n * b)%nat →
  concat ((λ k, take b (drop (k * b) l)) <$> seq 0 n) = l.
Proof.
  revert l. induction n as [|n IH]; intros l Hlen.
  - simpl in *. destruct l; [done|simpl in Hlen; lia].
  - rewrite fmap_seq_head. simpl. rewrite drop_0.
    rewrite (list_fmap_ext _ (λ k, take b (drop (k * b) (drop b l))) (seq 0 n)).
    + rewrite IH; [apply take_drop|]. rewrite length_drop. lia.
    + intros _ k _. simpl. rewrite drop_drop. f_equal; f_equal; lia.
Qed.

Lemma range_covers (len b : nat) :
  (0 < b)%nat → (len ≤ (len + b - 1) / b * b)%nat.
Proof.
  intros Hb. pose proof (Nat.mul_succ_div_gt (len + b - 1) b ltac:(lia)). lia.
Qed.

End MirrorFacts.

Section MirrorRun.
Context (f : Faults).

(** Where the batches of [range(0, len(rows), batch_size)] start. *)
Lemma py_range_run stop b st :
  py_range stop (S b) st
  = (Ok ((λ k, (k * S b)%nat) <$> seq 0 ((stop + S b - 1) / S b)), st).
Proof. reflexivity. Qed.

(** One run of the mirror: the batches sent are those of an initial part of
    the batch starts -- all of them when nothing fails. *)
Lemma _update_google_sheets_sent jobs batch_size st :
  ∃ done rest,
    (λ k, (k * batch_size)%nat)
      <$> seq 0 ((length jobs + batch_size - 1) / batch_size) = done ++ rest
    ∧ (sheet f = SheetOk → (0 < batch_size)%nat → rest = [])
    ∧ (sheet f = AuthFails → done = [])
    ∧ _update_google_sheets f jobs fieldnames batch_size st
      = (Ok tt,
         {| trace := trace st
                     ++ EvSheetOpen
                        :: (done ≫= batch_events batch_size (sheet_row <$> jobs));
            names := names st; csv_file := csv_file st |}).
Proof.
  unfold _update_google_sheets, try_except. rewrite bind_run. unfold emit at 1.
  assert (Hcases : sheet f = AuthFails ∨ sheet f ≠ AuthFails)
    by (destruct (sheet f); auto).
  destruct Hcases as [Hauth|Hauth].
  { eexists [], _. split; [reflexivity|]. split; [by rewrite Hauth|].
    split; [done|]. rewrite bind_run, Hauth. done. }
  assert (Hok : match sheet f with AuthFails => raise APIError | _ => ret tt end
                = ret tt) by by destruct (sheet f).
  rewrite bind_run, Hok. unfold ret at 1. rewrite bind_run, mapM_rows, bind_run.
  destruct batch_size as [|b].
  { exists [], []. split; [reflexivity|]. split; [lia|].
    split; [done|]. done. }
  rewrite py_range_run. cbv zeta.
  destruct (forM_batches f (sheet_row <$> jobs) (S b)
              ((λ k, (k * S b)%nat)
                 <$> seq 0 ((length (sheet_row <$> jobs) + S b - 1) / S b))
              (emit_event EvSheetOpen st))
    as (o & done & rest & Hsplit & E & Hend).
  exists done, rest. split; [by rewrite length_fmap in Hsplit|]. split.
  { intros Hs _. destruct Hend as [[_ ->]|(_ & i & rest' & _ & Hi)]; [done|].
    congruence. }
  split; [done|]. rewrite E. simpl. rewrite <- app_assoc. simpl.
  by destruct Hend as [[-> _]|[-> _]].
Qed.

Lemma sleeps_app a b : sleeps (a ++ b) = (sleeps a + sleeps b)%nat.
Proof. unfold sleeps. by rewrite omap_app, length_app. Qed.

Lemma sleeps_batch_events batch_size rows i :
  sleeps (batch_events batch_size rows i)
  = if (i + batch_size <? length rows)%nat then 1%nat else 0%nat.
Proof. unfold batch_events. by destruct (i + batch_size <? length rows)%nat. Qed.

(** A pause after every batch but the last. *)
Lemma sleeps_between rows b m :
  let n := ((length rows + S b - 1) / S b)%nat in
  (m ≤ n)%nat →
  sleeps (((λ k, (k * S b)%nat) <$> seq 0 m) ≫= batch_events (S b) rows)
  = (m `min` (n - 1))%nat.
Proof.
  intros n. induction m as [|m IH]; intros Hm; [done|].
  rewrite seq_S, fmap_app, bind_app, sleeps_app, IH by lia.
  replace (((λ k, (k * S b)%nat) <$> [(0 + m)%nat]) ≫= batch_events (S b) rows)
    with (batch_events (S b) rows (m * S b)) by (symmetry; apply app_nil_r).
  rewrite sleeps_batch_events.
  pose proof (range_covers (length rows) (S b) ltac:(lia)) as Hcover.
  pose proof (Nat.Div0.mul_div_le (length rows + S b - 1) (S b)) as Hfloor.
  fold n in Hcover, Hfloor.
  destruct (Nat.ltb_spec (m * S b + S b) (length rows)); nia.
Qed.

End MirrorRun.

(** X17. When the remote accepts everything, the mirror receives every
    record's row exactly once and in order, cut into batches of at most
    [batch_size] rows none of which is empty, with one pause between
    consecutive batches and none after the last.  It opens the sheet first,
    returns normally and changes nothing else. *)
Theorem X17_mirror_sends_every_row_once
  (f : Faults) (jobs : list Job.t) (batch_size : nat) (st : state) :
  sheet f = SheetOk →
  (0 < batch_size)%nat →
  ∃ d,
    _update_google_sheets f jobs fieldnames batch_size st
    = (Ok tt, {| trace := trace st ++ EvSheetOpen :: d; names := names st;
                 csv_file := csv_file st |})
    ∧ concat (sheet_batches d) = sheet_row <$> jobs
    ∧ Forall (λ b, (0 < length b ≤ batch_size)%nat) (sheet_batches d)
    ∧ sleeps d = (length (sheet_batches d) - 1)%nat.
Proof.
  intros Hs Hb.
  destruct (_update_google_sheets_sent f jobs batch_size st)
    as (done & rest & Hsplit & Hall & _ & E).
  rewrite (Hall Hs Hb), app_nil_r in Hsplit. subst done.
  eexists. split; [exact E|].
  rewrite sheet_batches_events, <- list_fmap_compose.
  destruct batch_size as [|b]; [lia|].
  pose proof (range_covers (length jobs) (S b) ltac:(lia)) as Hcover.
  pose proof (Nat.Div0.mul_div_le (length jobs + S b - 1) (S b)) as Hfloor.
  split; [|split].
  - apply chunks_concat. by rewrite length_fmap.
  - apply Forall_fmap, Forall_forall. intros k Hk.
    apply elem_of_seq in Hk. simpl.
    rewrite length_take, length_drop, length_fmap. nia.
  - rewrite (sleeps_between (sheet_row <$> jobs) b) by (rewrite length_fmap; lia).
    rewrite !length_fmap, length_seq. lia.
Qed.

(** Two hundred and one records in batches of a hundred. *)
Lemma X17_witness :
  ∃ d,
    _update_google_sheets Lab.no_faults (replicate 201 Lab.record_0) fieldnames 100
      (boot None)
    = (Ok tt, {| trace := trace (boot None) ++ EvSheetOpen :: d;
                 names := names (boot None); csv_file := csv_file (boot None) |})
    ∧ concat (sheet_batches d) = sheet_row <$> replicate 201 Lab.record_0
    ∧ Forall (λ b, (0 < length b ≤ 100)%nat) (sheet_batches d)
    ∧ sleeps d = (length (sheet_batches d) - 1)%nat.
Proof.
  apply (X17_mirror_sends_every_row_once Lab.no_faults (replicate 201 Lab.record_0)
           100 (boot None)); [reflexivity|lia].
Defined.

(** X18. Whatever goes wrong with the remote, the mirror returns normally,
    and the rows it has sent by then are an initial part of the batch's
    rows, in order and without repetition.  Nothing is sent when the sheet
    cannot be opened, or when the batch size is zero. *)
Theorem X18_mirror_sends_a_prefix
  (f : Faults) (jobs : list Job.t) (batch_size : nat) (st : state) :
  ∃ d,
    _update_google_sheets f jobs fieldnames batch_size st
    = (Ok tt, {| trace := trace st ++ EvSheetOpen :: d; names := names st;
                 csv_file := csv_file st |})
    ∧ concat (sheet_batches d) `prefix_of` (sheet_row <$> jobs)
    ∧ (sheet f = AuthFails → sheet_batches d = [])
    ∧ (batch_size = 0%nat → sheet_batches d = []).
Proof.
  destruct (_update_google_sheets_sent f jobs batch_size st)
    as (done & rest & Hsplit & _ & Hauth & E).
  eexists. split; [exact E|]. rewrite sheet_batches_events. split; [|split].
  - destruct batch_size as [|b].
    { symmetry in Hsplit. apply app_eq_nil in Hsplit as [-> _]. apply prefix_nil. }
    exists (concat ((λ i, take (S b) (drop i (sheet_row <$> jobs))) <$> rest)).
    rewrite <- concat_app, <- fmap_app, <- Hsplit, <- list_fmap_compose.
    symmetry. apply chunks_concat. rewrite length_fmap. apply range_covers. lia.
  - intros H. by rewrite (Hauth H).
  - intros ->. symmetry in Hsplit. by apply app_eq_nil in Hsplit as [-> _].
Qed.

(** ** The sweep *)

Section SweepShape.
Context (w : World).






(** Printers that never answer: two requests each, nothing collected. *)
Lemma for_printers_unreachable fuel self ps acc st :
  Forall (λ p, unreachable w (ip p)) ps →
  NoDup (pid <$> ps) →
  (∀ p, p ∈ ps → names st !! pid p = None) →
  ∃ n, for_printers w (S fuel) self ps acc st
       = Some (Ok acc,
               {| trace := trace st ++ ((ip <$> ps) ≫= first_requests);
                  names := n; csv_file := csv_file st |}).
Proof.
  remember (S fuel) as k eqn:Hk.
  revert st. induction ps as [|p ps IH]; intros st Hun Hnd Hfresh.
  - exists (names st). simpl. unfold lift, ret. rewrite app_nil_r. by destruct st.
  - apply Forall_cons in Hun as [Hp Hun].
    rewrite fmap_cons in Hnd. apply NoDup_cons in Hnd as [Hnotin Hnd].
    simpl. unfold bindL at 1. unfold lift.
    rewrite name_uncached by (rewrite Hfresh; [done|by left]).
    unfold bindL. subst k. rewrite fetch_pages_unfold.
    rewrite (Hp (EpHistory 0 CONFIG.BATCH_SIZE)).
    unfold resolved_name. rewrite (Hp EpSystem).
    set (st2 := emit_event _ (set_name _ _ (emit_event _ st))).
    destruct (IH st2) as (n & E); [done|done| |].
    { intros q Hq. simpl. rewrite lookup_insert_ne.
      - apply Hfresh. by right.
      - intros Heq. apply Hnotin. rewrite Heq. by apply list_elem_of_fmap_2. }
    exists n. rewrite E. simpl. by rewrite <- !app_assoc.
Qed.

End SweepShape.

(** X19. Entries of a history page that are not objects are passed over: a
    page is processed exactly as the page without them would be -- same
    records, same requests, same outcome. *)
Theorem X19_non_dict_entries_are_ignored
  (w : World) (self : UltimakerLogger) (p : PrinterAPI) (history : list pyval)
  (acc : list Job.t) (st : state) :
  for_jobs w self p history acc st
  = for_jobs w self p (filter (λ v, is_dict v = true) history) acc st.
Proof.
  revert acc st. induction history as [|job rest IH]; intros acc st; [done|].
  destruct job as [| | | | |d];
    try (rewrite filter_cons_False by done; simpl; rewrite bind_run; apply IH).
  rewrite filter_cons_True by done. simpl. rewrite !bind_run.
  match goal with
  | |- match ?m with _ => _ end = _ => destruct m as [[acc1|e] st1]
  end; [apply IH|done].
Qed.

(** X20. Sweeping a list of printers is sweeping its first part and then,
    with the records gathered so far and in the state reached, the rest: an
    exception or an exhausted page budget in the first part ends the whole
    sweep. *)
Theorem X20_sweep_of_printers_composes
  (w : World) (fuel : nat) (self : UltimakerLogger) (ps1 ps2 : list PrinterAPI)
  (acc : list Job.t) (st : state) :
  for_printers w fuel self (ps1 ++ ps2) acc st
  = (let+ acc1 := for_printers w fuel self ps1 acc in
     for_printers w fuel self ps2 acc1) st.
Proof.
  revert acc st. induction ps1 as [|p ps1 IH]; intros acc st; simpl; [done|].
  unfold bindL, lift.
  destruct (name w p st) as [[pn|e] st1]; [|done].
  destruct (fetch_pages w fuel self p 0 acc st1) as [[[acc1|e] st2]|];
    [|done|done].
  apply IH.
Qed.

(** X21. When none of the listed printers answers any request, a run from a
    fresh process completes normally after asking each printer, in the order
    of the list, for its name and for the first page of its history; nothing
    else happens, and the log is what it was. *)
Theorem X21_unreachable_printers_change_nothing
  (w : World) (f : Faults) (fuel : nat) (printer_ips : list string)
  (log : option (list (list string))) :
  Forall (unreachable w) printer_ips →
  ∃ n,
    main w f (S fuel) printer_ips (boot log)
    = Some (Ok tt, {| trace := printer_ips ≫= first_requests; names := n;
                      csv_file := log |}).
Proof.
  intros Hun. unfold main, bindL, lift. rewrite __init___spec.
  unfold collect_logs, collect_batch, bindL. cbn [printers].
  destruct (for_printers_unreachable w fuel
              {| printers := imap (λ i a, {| pid := i; ip := a |}) printer_ips;
                 existing_uuids := loaded_uuids f (boot log) |}
              (imap (λ i a, {| pid := i; ip := a |}) printer_ips) [] (boot log))
    as (n & E).
  - apply (Forall_fmap ip (unreachable w)). by rewrite imap_printers_ip.
  - rewrite imap_printers_pid. apply NoDup_seq.
  - intros q _. apply lookup_empty.
  - exists n. rewrite E, imap_printers_ip. done.
Qed.

(** Two addresses nobody listens on. *)
Lemma X21_witness :
  ∃ n,
    main Annex.world Lab.no_faults 1 ["10.0.1.8"; "10.0.1.9"] (boot Lab.old_log)
    = Some (Ok tt, {| trace := ["10.0.1.8"; "10.0.1.9"] ≫= first_requests;
                      names := n; csv_file := Lab.old_log |}).
Proof.
  apply (X21_unreachable_printers_change_nothing Annex.world Lab.no_faults 0
           ["10.0.1.8"; "10.0.1.9"] Lab.old_log).
  repeat constructor; intros []; reflexivity.
Defined.



(** X23. The sweep only talks to printers.  Whatever it returns, it has
    left the log alone and has neither opened the sheet nor paused; and it
    does not look at the log either: started on any other log it makes the
    same requests and returns the same. *)
Theorem X23_sweep_only_talks_to_printers
  (w : World) (fuel : nat) (self : UltimakerLogger) (st : state)
  (r : outcome (list Job.t)) (st' : state) :
  collect_batch w fuel self st = Some (r, st') →
  csv_file st' = csv_file st
  ∧ (∃ d, trace st' = trace st ++ d ∧ Forall is_get d)
  ∧ ∀ log, collect_batch w fuel self (set_csv log st) = Some (r, set_csv log st').
Proof.
  intros Hrun.
  apply (devL_run _ _ _ _ _ (collect_batch_dev w fuel self)) in Hrun
    as (d & n & Hd & -> & Hlog).
  split; [done|]. split; [by exists d|done].
Qed.

(** Printer [10.0.0.5] swept with and without a log. *)
Lemma X23_witness :
  ∃ r st',
    collect_batch Lab.world 2 (Lab.logger "10.0.0.5") (boot None) = Some (r, st')
    ∧ csv_file st' = None
    ∧ (∃ d, trace st' = [] ++ d ∧ Forall is_get d)
    ∧ ∀ log, collect_batch Lab.world 2 (Lab.logger "10.0.0.5") (set_csv log (boot None))
             = Some (r, set_csv log st').
Proof.
  eexists _, _. split; [vm_compute; reflexivity|].
  refine (X23_sweep_only_talks_to_printers Lab.world 2 (Lab.logger "10.0.0.5")
            (boot None) _ _ _).
  vm_compute. reflexivity.
Defined.

(** ** The list of printers *)

(** X24. The addresses read from the IP file: none is empty, they come in
    the order of the file's lines, and every line that is not blank and does
    not begin with [#] contributes its stripped text.  The test for a
    comment is made on the line as read, the test for a blank line on the
    stripped line. *)
Theorem X24_load_printer_ips_keeps_the_address_lines
  (w : World) (lines ips : list string) :
  _load_printer_ips w (Some lines) = Some ips →
  ("" ∉ ips)
  ∧ (ips `sublist_of` (str_strip w <$> lines))
  ∧ ∀ line, line ∈ lines → starts_with_hash line = false →
            str_strip w line ≠ "" → str_strip w line ∈ ips.
Proof.
  intros [= <-]. split; [|split].
  - intros Hin. apply list_elem_of_fmap in Hin as (line & Hline & Hin).
    apply list_elem_of_filter in Hin as [[Hne _] _]. by apply Hne.
  - apply fmap_sublist, sublist_filter.
  - intros line Hin Hhash Hne. apply list_elem_of_fmap_2.
    by apply list_elem_of_filter.
Qed.

(** A file with a comment, two addresses and an empty line. *)
Lemma X24_witness :
  ("" ∉ ["10.0.1.1"; "10.0.1.2"])
  ∧ (["10.0.1.1"; "10.0.1.2"]
       `sublist_of` (str_strip Annex.world <$> ["# lab"; "10.0.1.1"; ""; "10.0.1.2"]))
  ∧ ∀ line, line ∈ ["# lab"; "10.0.1.1"; ""; "10.0.1.2"] →
            starts_with_hash line = false →
            str_strip Annex.world line ≠ "" →
            str_strip Annex.world line ∈ ["10.0.1.1"; "10.0.1.2"].
Proof.
  apply (X24_load_printer_ips_keeps_the_address_lines Annex.world
           ["# lab"; "10.0.1.1"; ""; "10.0.1.2"] ["10.0.1.1"; "10.0.1.2"]).
  vm_compute. reflexivity.
Defined.
